(** * freddie: the audio metadata extraction pipeline

    A shallow embedding of the two copies of the metadata extractor,
    [src/metadata_extractor.py] (module [Toplevel]) and
    [src/backend/metadata_extractor.py] (module [Backend]), with the
    properties of the specification stated and proved over it.

    Layout:
    - Python values, strings and dictionaries as the code uses them;
    - [sys.stdout] and [os.path] as interfaces of the platform: a stdout
      that takes every line and one with a strict UTF-8 encoder, and
      the POSIX paths;
    - the outside world (file system, mutagen, librosa, clock) as a
      record of outcomes, and a state-and-exception monad for the
      interpreter effects the code relies on (stdout, raised exceptions,
      files written);
    - the two modules, function by function;
    - the handler of [src/backend/main.py], which serves the report;
    - the theorems. *)

From Stdlib Require Import String Ascii List ZArith QArith Qround Bool Lia.
From Stdlib Require Import DecimalString Lqa FunctionalExtensionality.
Import ListNotations.

Local Open Scope string_scope.
Local Open Scope Z_scope.

(* ================================================================== *)
(** ** Python values *)
(* ================================================================== *)

(** A Python [float] is carried as the number it denotes.  The pipeline
    never does arithmetic on one; it only rounds the tempo estimate. *)
Inductive pyfloat : Type :=
| FFinite (q : Q)
| FInf (negative : bool)
| FNaN.

(** The values a metadata record holds. *)
Inductive pyval : Type :=
| VStr (s : string)
| VInt (z : Z)
| VFloat (f : pyfloat)
| VBool (b : bool).

(** A [dict], in insertion order: JSON output follows that order. *)
Definition pydict : Type := list (string * pyval).

(** [d[key]], [key in d], [d.get(key)] and [d[key] = v] on an
    association list whose keys are unique. *)
Fixpoint lookup {A : Type} (key : string) (d : list (string * A)) : option A :=
  match d with
  | [] => None
  | (k, v) :: d' => if String.eqb k key then Some v else lookup key d'
  end.

Definition dict_has {A : Type} (key : string) (d : list (string * A)) : bool :=
  match lookup key d with Some _ => true | None => false end.

Definition dict_get (key : string) (d : pydict) : option pyval := lookup key d.

Fixpoint dict_set (key : string) (v : pyval) (d : pydict) : pydict :=
  match d with
  | [] => [(key, v)]
  | (k, w) :: d' =>
      if String.eqb k key then (k, v) :: d' else (k, w) :: dict_set key v d'
  end.

(** [str(n)] for an [int]. *)
Definition str_int (z : Z) : string := NilZero.string_of_int (Z.to_int z).
Definition str_nat (n : nat) : string := str_int (Z.of_nat n).

(** Python's [round(x)] on a float: to the nearest integer, ties to the
    even one. *)
Definition round_half_even (q : Q) : Z :=
  let f := Qfloor q in
  match Qcompare (q - inject_Z f) (1 # 2) with
  | Lt => f
  | Gt => f + 1
  | Eq => if Z.even f then f else f + 1
  end.

(** Truth value of what [calculate_bpm] returns: [None] and [0] are
    false, every other integer is true. *)
Definition truthy_bpm (bpm : option Z) : bool :=
  match bpm with
  | None => false
  | Some n => negb (n =? 0)
  end.

(** [v == True]. *)
Definition eq_True (v : option pyval) : bool :=
  match v with
  | Some (VBool b) => b
  | Some (VInt z) => z =? 1
  | Some (VFloat (FFinite q)) => Qeq_bool q 1
  | _ => false
  end.

(* ================================================================== *)
(** ** Strings *)
(* ================================================================== *)

Definition newline : string := String (ascii_of_nat 10) "".
Definition nul : string := String (ascii_of_nat 0) "".

(** [s.lower()]; on the bytes of a UTF-8 string only the ASCII letters
    change, which is all the extension test looks at. *)
Definition lower_ascii (c : ascii) : ascii :=
  let n := nat_of_ascii c in
  if (65 <=? n)%nat && (n <=? 90)%nat then ascii_of_nat (n + 32) else c.

Fixpoint lower (s : string) : string :=
  match s with
  | EmptyString => EmptyString
  | String c s' => String (lower_ascii c) (lower s')
  end.

Definition startswith (s pre : string) : bool := String.prefix pre s.

Definition endswith (s suf : string) : bool :=
  let n := String.length s in
  let m := String.length suf in
  (m <=? n)%nat && String.eqb (substring (n - m) m s) suf.

(** [s.endswith((a, b, ...))]. *)
Definition endswith_any (s : string) (sufs : list string) : bool :=
  existsb (endswith s) sufs.

(** [sep.join(parts)]. *)
Fixpoint join_with (sep : string) (parts : list string) : string :=
  match parts with
  | [] => ""
  | [p] => p
  | p :: rest => p ++ sep ++ join_with sep rest
  end.

(** [s.split("/")]. *)
Fixpoint split_slash_aux (s cur : string) : list string :=
  match s with
  | EmptyString => [cur]
  | String c s' =>
      if Ascii.eqb c "/"%char then cur :: split_slash_aux s' ""
      else split_slash_aux s' (cur ++ String c "")
  end.

Definition split_slash (s : string) : list string := split_slash_aux s "".

(* ================================================================== *)
(** ** Text that cannot be encoded *)
(* ================================================================== *)

(** A string here is the UTF-8 bytes of a Python [str].  A file name
    that is not UTF-8 reaches Python with each stray byte [b] turned
    into the lone surrogate U+DC00+[b]; such a [str] cannot be encoded
    again by a strict UTF-8 writer. *)

Definition in_range (lo hi : nat) (c : ascii) : bool :=
  let n := nat_of_ascii c in (lo <=? n)%nat && (n <=? hi)%nat.

Definition continuation (c : ascii) : bool := in_range 128 191 c.

(** The length of the well-formed UTF-8 sequence a string starts with,
    if it starts with one. *)
Definition utf8_sequence (s : string) : option nat :=
  match s with
  | EmptyString => None
  | String c0 r =>
      if in_range 0 127 c0 then Some 1%nat
      else if in_range 194 223 c0 then
        match r with
        | String c1 _ => if continuation c1 then Some 2%nat else None
        | _ => None
        end
      else if in_range 224 239 c0 then
        match r with
        | String c1 (String c2 _) =>
            if (if in_range 224 224 c0 then in_range 160 191 c1
                else if in_range 237 237 c0 then in_range 128 159 c1
                else continuation c1)
               && continuation c2
            then Some 3%nat else None
        | _ => None
        end
      else if in_range 240 244 c0 then
        match r with
        | String c1 (String c2 (String c3 _)) =>
            if (if in_range 240 240 c0 then in_range 144 191 c1
                else if in_range 244 244 c0 then in_range 128 143 c1
                else continuation c1)
               && continuation c2 && continuation c3
            then Some 4%nat else None
        | _ => None
        end
      else None
  end.

(** The characters of the [str]: [None] for a character that encodes,
    [Some b] for the lone surrogate of the stray byte [b]. *)
Fixpoint characters (s : string) (skip : nat) : list (option ascii) :=
  match s with
  | EmptyString => []
  | String c r =>
      match skip with
      | S k => characters r k
      | O =>
          match utf8_sequence s with
          | Some n => None :: characters r (n - 1)
          | None => Some c :: characters r 0
          end
      end
  end.

(** The surrogates a list of characters starts with. *)
Fixpoint leading_surrogates (cs : list (option ascii)) : list ascii :=
  match cs with
  | Some b :: cs' => b :: leading_surrogates cs'
  | _ => []
  end.

(** The position of the first surrogate and the run it starts. *)
Fixpoint first_surrogates (cs : list (option ascii)) (pos : nat)
    : option (nat * list ascii) :=
  match cs with
  | [] => None
  | None :: cs' => first_surrogates cs' (S pos)
  | Some b :: cs' => Some (pos, b :: leading_surrogates cs')
  end.

Definition hex_digit (n : nat) : string :=
  substring n 1 "0123456789abcdef".

Definition hex2 (c : ascii) : string :=
  let n := nat_of_ascii c in
  hex_digit (n / 16) ++ hex_digit (n mod 16).

(** [str(e)] of the [UnicodeEncodeError] a strict UTF-8 encoder raises
    on a [str], if it raises. *)
Definition utf8_encode_error (text : string) : option string :=
  match first_surrogates (characters text 0) 0 with
  | None => None
  | Some (pos, [b]) =>
      Some ("'utf-8' codec can't encode character '\udc" ++ hex2 b
            ++ "' in position " ++ str_nat pos ++ ": surrogates not allowed")
  | Some (pos, run) =>
      Some ("'utf-8' codec can't encode characters in position "
            ++ str_nat pos ++ "-" ++ str_nat (pos + length run - 1)
            ++ ": surrogates not allowed")
  end.

(** What [sys.stdout] does with a line it is asked to write: [Some msg]
    is the message of the exception it raises.  This depends on how the
    interpreter was started (encoding and error handler of stdout), so
    it is an interface like [os.path]. *)
Class Stdout : Type := {
  stdout_error : string -> option string
}.

(** A stdout that writes every line, as under
    [PYTHONIOENCODING=utf-8:surrogateescape].  Where a statement names
    no stdout, it is about this one. *)
#[export] Instance accepting_stdout : Stdout := {|
  stdout_error := fun _ => None
|}.

(** A stdout with a strict UTF-8 encoder, the default in a UTF-8
    locale. *)
Definition strict_stdout : Stdout := {|
  stdout_error := utf8_encode_error
|}.

(* ================================================================== *)
(** ** [os.path] *)
(* ================================================================== *)

(** The three [os.path] functions the code calls.  They depend on the
    platform the interpreter runs on, so they are an interface. *)
Class OsPath : Type := {
  normpath : string -> string;
  basename : string -> string;
  join : string -> string -> string
}.

Module posixpath.

Definition join (a b : string) : string :=
  if startswith b "/" then b
  else if String.eqb a "" || endswith a "/" then a ++ b
  else a ++ "/" ++ b.

(** The part after the last slash. *)
Definition basename (p : string) : string := last (split_slash p) "".

(** One step of the component loop of [normpath]; [new_comps] is kept
    reversed. *)
Definition norm_step (initial_slashes : nat) (new_comps : list string)
    (comp : string) : list string :=
  if String.eqb comp "" || String.eqb comp "." then new_comps
  else if negb (String.eqb comp "..")
          || ((initial_slashes =? 0)%nat
              && match new_comps with [] => true | _ => false end)
          || match new_comps with
             | c :: _ => String.eqb c ".."
             | [] => false
             end
  then comp :: new_comps
  else match new_comps with
       | _ :: rest => rest
       | [] => new_comps
       end.

Definition normpath (path : string) : string :=
  if String.eqb path "" then "."
  else
    let initial_slashes : nat :=
      if startswith path "/" then
        if startswith path "//" && negb (startswith path "///")
        then 2%nat else 1%nat
      else 0%nat in
    let comps := rev (fold_left (norm_step initial_slashes) (split_slash path) []) in
    let path' := String.concat "" (repeat "/" initial_slashes)
                 ++ join_with "/" comps in
    if String.eqb path' "" then "." else path'.

End posixpath.

#[export] Instance posix : OsPath := {|
  normpath := posixpath.normpath;
  basename := posixpath.basename;
  join := posixpath.join
|}.

(* ================================================================== *)
(** ** What the libraries hand back *)
(* ================================================================== *)

(** [audio.info] of a mutagen file object. *)
Record stream_info : Type := {
  info_length : pyfloat;
  info_bitrate : Z;
  info_sample_rate : Z;
  info_channels : Z
}.

(** An ID3 text frame.  mutagen's [str(frame)] joins the frame's text
    values, with NUL for a plain text frame and with a comma for a time
    stamp frame ([TDRC]). *)
Inductive id3frame : Type :=
| TextFrame (text : list string)
| TimeStampTextFrame (text : list string).

Definition frame_str (f : id3frame) : string :=
  match f with
  | TextFrame text => join_with nul text
  | TimeStampTextFrame text => join_with "," text
  end.

(** What an MP4 tag value holds: text, an integer ([tmpo]), a flag, or a
    tuple of integers ([trkn] is a list of (track, total) pairs). *)
Inductive mp4atom : Type :=
| AStr (s : string)
| AInt (z : Z)
| ABool (b : bool)
| ATuple (zs : list Z).

(** [audio[tag_id]]: a Python list, or a single value. *)
Inductive mp4value : Type :=
| MList (items : list mp4atom)
| MAtom (a : mp4atom).

Definition str_atom (a : mp4atom) : string :=
  match a with
  | AStr s => s
  | AInt z => str_int z
  | ABool true => "True"
  | ABool false => "False"
  | ATuple [z] => "(" ++ str_int z ++ ",)"
  | ATuple zs => "(" ++ join_with ", " (map str_int zs) ++ ")"
  end.

(** A directory as [os.walk] sees it: its own name, the names of its
    files and its subdirectories, each in listing order.  The name of
    the directory a walk starts from is not looked at. *)
#[warnings="-register-all"]
Inductive dirtree : Type :=
| Dir (name : string) (files : list string) (subdirs : list dirtree).

(** What [librosa.beat.tempo(onset_envelope=onset_env, sr=sr)[0]] can
    be.  With the defaults the code leaves in place (a hop of 512
    samples, an autocorrelation window of 8 seconds) librosa picks an
    entry of its table of candidate tempi: [inf] at lag 0, and
    60 * sr / (512 * lag) for each lag from 1 up to the last one inside
    the window, lag < floor(8 * sr / 512). *)
Inductive tempo : Type :=
| TempoInf
| TempoLag (sr lag : positive)
    (in_window : (512 * (lag + 1) <=? 8 * sr)%positive = true).

(** The [float] a tempo is. *)
Definition tempo_value (t : tempo) : pyfloat :=
  match t with
  | TempoInf => FInf false
  | TempoLag sr lag _ => FFinite (Zpos (60 * sr) # (512 * lag))
  end.

(** The outside world of one run.  A library call that raises is [inl]
    of the exception's message, [str(e)]. *)
Record World : Type := {
  (** the directory at a path, if the path is a directory *)
  fs : string -> option dirtree;
  (** [MP3(file_path)] *)
  MP3 : string -> string + stream_info;
  (** [ID3(file_path)] *)
  ID3 : string -> string + list (string * id3frame);
  (** [MP4(file_path)]: stream header and tags *)
  MP4 : string -> string + (stream_info * list (string * mp4value));
  (** [import librosa; import numpy]: [Some msg] is an ImportError *)
  import_librosa : option string;
  (** [librosa.load], [onset_strength] and [beat.tempo(...)[0]] on a
      path: the tempo estimate, or the message of what was raised *)
  librosa_tempo : string -> string + tempo;
  (** opening a path for writing and dumping the document into it:
      [Some msg] is the exception raised *)
  write_error : string -> option string;
  (** [datetime.datetime.now().strftime(...)] *)
  now : string;
  (** [platform.system()] *)
  platform_system : string
}.

(* ================================================================== *)
(** ** Interpreter effects *)
(* ================================================================== *)

(** What a run leaves behind: the lines printed, the paths handed to the
    tempo estimator, the paths it tried to open for writing in the order
    of the attempts, and the documents written. *)
Record report : Type := {
  timestamp : string;
  system : string;
  file_count : Z;
  metadata : list pydict
}.

Record pystate : Type := {
  stdout : list string;
  estimated : list string;
  opened : list string;
  written : list (string * report)
}.

Definition initial_state : pystate :=
  {| stdout := []; estimated := []; opened := []; written := [] |}.

(** [SystemExit] derives from [BaseException], not from [Exception]:
    an [except Exception] clause lets it through. *)
Inductive pyexn : Type :=
| PyException (msg : string)
| SystemExit (code : Z).

Inductive outcome (A : Type) : Type :=
| Ok (a : A)
| Raise (e : pyexn).
Arguments Ok {A} a.
Arguments Raise {A} e.

Definition M (A : Type) : Type := pystate -> outcome A * pystate.

Definition ret {A : Type} (a : A) : M A := fun s => (Ok a, s).

Definition bind {A B : Type} (c : M A) (k : A -> M B) : M B :=
  fun s =>
    match c s with
    | (Ok a, s') => k a s'
    | (Raise e, s') => (Raise e, s')
    end.

Declare Scope py_scope.
Delimit Scope py_scope with py.
Notation "x <- c ;; k" := (bind c (fun x => k))
  (at level 61, c at next level, right associativity) : py_scope.
Notation "c ;; k" := (bind c (fun _ => k))
  (at level 61, right associativity) : py_scope.
Local Open Scope py_scope.

Definition raise {A : Type} (msg : string) : M A :=
  fun s => (Raise (PyException msg), s).

(** [sys.exit(code)]. *)
Definition sys_exit {A : Type} (code : Z) : M A :=
  fun s => (Raise (SystemExit code), s).

(** [try: body  except Exception as e: handler(str(e))]. *)
Definition try_except {A : Type} (body : M A) (handler : string -> M A) : M A :=
  fun s =>
    match body s with
    | (Raise (PyException msg), s') => handler msg s'
    | r => r
    end.

(** A library call: its result, or its exception. *)
Definition call {A : Type} (r : string + A) : M A :=
  match r with
  | inl msg => raise msg
  | inr a => ret a
  end.

(** [print(line)]: the line is encoded as a whole before any of it is
    written, so a line stdout cannot encode leaves no trace. *)
Definition print {console : Stdout} (line : string) : M unit :=
  fun s =>
    match stdout_error line with
    | Some msg => (Raise (PyException msg), s)
    | None => (Ok tt, {| stdout := stdout s ++ [line];
                         estimated := estimated s;
                         opened := opened s;
                         written := written s |})
    end.

(** A [for] loop whose body may [break]. *)
Inductive loop_ctl (S : Type) : Type :=
| Next (s : S)
| Break (s : S).
Arguments Next {S} s.
Arguments Break {S} s.

Fixpoint for_in {A S : Type} (xs : list A) (body : A -> S -> M (loop_ctl S))
    (s : S) : M S :=
  match xs with
  | [] => ret s
  | x :: xs' =>
      r <- body x s ;;
      match r with
      | Next s' => for_in xs' body s'
      | Break s' => ret s'
      end
  end.

(** [round(tempo)]: infinities and NaN cannot be converted. *)
Definition py_round (x : pyfloat) : M Z :=
  match x with
  | FFinite q => ret (round_half_even q)
  | FInf _ => raise "cannot convert float infinity to integer"
  | FNaN => raise "cannot convert float NaN to integer"
  end.

(** [items[0]]. *)
Definition first_item {A : Type} (items : list A) : M A :=
  match items with
  | x :: _ => ret x
  | [] => raise "list index out of range"
  end.

Section Environment.

Context {os_path : OsPath} (W : World).

Definition isdir (path : string) : bool :=
  match fs W path with Some _ => true | None => false end.

(** [os.walk(top)] top-down: each directory with the names of its
    files, a directory before its subdirectories. *)
Fixpoint walk_tree (top : string) (t : dirtree) : list (string * list string) :=
  match t with
  | Dir _ files subdirs =>
      (top, files)
      :: flat_map (fun sub =>
                     match sub with
                     | Dir name _ _ => walk_tree (join top name) sub
                     end) subdirs
  end.

Definition os_walk (top : string) : list (string * list string) :=
  match fs W top with
  | Some t => walk_tree top t
  | None => []
  end.

(** The estimator's library calls on a path, recorded in the state. *)
Definition librosa_estimate (file_path : string) : M tempo :=
  fun s =>
    call (librosa_tempo W file_path)
         {| stdout := stdout s;
            estimated := estimated s ++ [file_path];
            opened := opened s;
            written := written s |}.

(** [import librosa; import numpy]. *)
Definition do_import_librosa : M unit :=
  match import_librosa W with
  | Some msg => raise msg
  | None => ret tt
  end.

(** [with open(path, "w") as f: json.dump(doc, f)]. *)
Definition write_json (path : string) (doc : report) : M unit :=
  fun s =>
    match write_error W path with
    | Some msg =>
        (Raise (PyException msg),
         {| stdout := stdout s; estimated := estimated s;
            opened := opened s ++ [path]; written := written s |})
    | None =>
        (Ok tt,
         {| stdout := stdout s; estimated := estimated s;
            opened := opened s ++ [path];
            written := written s ++ [(path, doc)] |})
    end.

(** The document both write attempts build. *)
Definition make_report (records : list pydict) : report :=
  {| timestamp := now W;
     system := platform_system W;
     file_count := Z.of_nat (length records);
     metadata := records |}.

End Environment.

(** [str(bpm)] for what [calculate_bpm] returned. *)
Definition str_bpm (bpm : option Z) : string :=
  match bpm with
  | Some n => str_int n
  | None => "None"
  end.

(** The record of a file that could not be parsed. *)
Definition error_record (file_path e : string) : pydict :=
  [("file_path", VStr file_path); ("error", VStr e)].

(** The structural fields a record starts with. *)
Definition structural (file_path file_type : string) (info : stream_info) : pydict :=
  [("file_path", VStr file_path);
   ("file_type", VStr file_type);
   ("duration", VFloat (info_length info));
   ("bitrate", VInt (info_bitrate info));
   ("sample_rate", VInt (info_sample_rate info));
   ("channels", VInt (info_channels info))].

(* ================================================================== *)
(** ** [src/backend/metadata_extractor.py] *)
(* ================================================================== *)

Module Backend.
Section Code.

Context {os_path : OsPath} {console : Stdout} (W : World).

Definition calculate_bpm (file_path : string) : M (option Z) :=
  try_except
    (do_import_librosa W ;;
     tempo <- librosa_estimate W file_path ;;
     bpm <- py_round (tempo_value tempo) ;;
     ret (Some bpm))
    (fun e =>
       print (newline ++ "Error calculating BPM for " ++ file_path ++ ": " ++ e) ;;
       ret None).

Definition mp3_tag_mapping : list (string * list string) :=
  [("title", ["TIT2"]);
   ("artist", ["TPE1"]);
   ("album", ["TALB"]);
   ("year", ["TDRC"; "TYER"]);
   ("genre", ["TCON"]);
   ("track_number", ["TRCK"]);
   ("bpm", ["TBPM"]);
   ("key", ["TKEY"]);
   ("composer", ["TCOM"]);
   ("publisher", ["TPUB"]);
   ("initial_key", ["TKEY"])].

(** The body of [for tag_id in tag_ids] of the MP3 parser. *)
Definition mp3_probe (tags : list (string * id3frame)) (key tag_id : string)
    (metadata : pydict) : M (loop_ctl pydict) :=
  match lookup tag_id tags with
  | Some frame => ret (Break (dict_set key (VStr (frame_str frame)) metadata))
  | None => ret (Next metadata)
  end.

(** The BPM step both parsers end with. *)
Definition fill_bpm (file_path : string) (calculate_missing_bpm : bool)
    (metadata : pydict) : M pydict :=
  if negb (dict_has "bpm" metadata) && calculate_missing_bpm then
    bpm <- calculate_bpm file_path ;;
    if truthy_bpm bpm then
      let metadata := dict_set "bpm" (VStr (str_bpm bpm)) metadata in
      let metadata := dict_set "bpm_calculated" (VBool true) metadata in
      ret metadata
    else ret metadata
  else ret metadata.

(** The [try] block of [extract_mp3_metadata] up to the BPM step:
    open the file, read the stream header, probe the tags. *)
Definition mp3_container (file_path : string) : M pydict :=
  audio <- call (MP3 W file_path) ;;
  tags <- call (ID3 W file_path) ;;
  let metadata := structural file_path "mp3" audio in
  for_in mp3_tag_mapping
    (fun entry metadata =>
       metadata <- for_in (snd entry) (mp3_probe tags (fst entry)) metadata ;;
       ret (Next metadata))
    metadata.

Definition extract_mp3_metadata (file_path : string)
    (calculate_missing_bpm : bool) : M pydict :=
  try_except
    (metadata <- mp3_container file_path ;;
     fill_bpm file_path calculate_missing_bpm metadata)
    (fun e => ret (error_record file_path e)).

Definition mp4_tag_mapping : list (string * list string) :=
  [("title", ["©nam"]);
   ("artist", ["©ART"]);
   ("album", ["©alb"]);
   ("year", ["©day"]);
   ("genre", ["©gen"; "gnre"]);
   ("track_number", ["trkn"]);
   ("bpm", ["tmpo"]);
   ("composer", ["©wrt"]);
   ("comment", ["©cmt"]);
   ("copyright", ["cprt"]);
   ("album_artist", ["aART"])].

(** The body of [for tag_id in tag_ids] of the MP4 parser. *)
Definition mp4_probe (audio : list (string * mp4value)) (key tag_id : string)
    (metadata : pydict) : M (loop_ctl pydict) :=
  match lookup tag_id audio with
  | Some value =>
      metadata <-
        match value with
        | MList items =>
            if String.eqb tag_id "tmpo" && String.eqb key "bpm" then
              v <- first_item items ;;
              ret (dict_set key (VStr (str_atom v)) metadata)
            else
              v <- first_item items ;;
              ret (dict_set key (VStr (str_atom v)) metadata)
        | MAtom a => ret (dict_set key (VStr (str_atom a)) metadata)
        end ;;
      ret (Break metadata)
  | None => ret (Next metadata)
  end.

(** The [try] block of [extract_mp4_metadata] up to the BPM step. *)
Definition mp4_container (file_path : string) : M pydict :=
  parsed <- call (MP4 W file_path) ;;
  let audio := snd parsed in
  let metadata := structural file_path "mp4" (fst parsed) in
  for_in mp4_tag_mapping
    (fun entry metadata =>
       metadata <- for_in (snd entry) (mp4_probe audio (fst entry)) metadata ;;
       ret (Next metadata))
    metadata.

Definition extract_mp4_metadata (file_path : string)
    (calculate_missing_bpm : bool) : M pydict :=
  try_except
    (metadata <- mp4_container file_path ;;
     fill_bpm file_path calculate_missing_bpm metadata)
    (fun e => ret (error_record file_path e)).

(** The first loop of [scan_directory]: every eligible file with its
    path and whether it goes to the MP3 parser. *)
Definition audio_files_of (walk : list (string * list string))
    : list (string * bool) :=
  flat_map
    (fun entry =>
       flat_map
         (fun file =>
            if endswith_any (lower file) [".mp3"; ".mp4"; ".m4a"]
            then [(join (fst entry) file, endswith (lower file) ".mp3")]
            else [])
         (snd entry))
    walk.

(** The body of the processing loop.  The progress bar, its count of
    estimated tempos and its time estimate go to stderr and read the
    clock; none of them reaches the records. *)
Definition process_file (calculate_missing_bpm : bool) (item : string * bool)
    (results : list pydict) : M (loop_ctl (list pydict)) :=
  metadata <- (if snd item
               then extract_mp3_metadata (fst item) calculate_missing_bpm
               else extract_mp4_metadata (fst item) calculate_missing_bpm) ;;
  ret (Next (results ++ [metadata])%list).

Definition scan_directory (directory : string) (calculate_missing_bpm : bool)
    : M (list pydict) :=
  let results : list pydict := [] in
  let directory := normpath directory in
  (if negb (isdir W directory) then
     print ("Error: " ++ directory ++ " is not a valid directory.") ;;
     sys_exit 1
   else ret tt) ;;
  print ("Scanning directory: " ++ directory) ;;
  print "Finding audio files..." ;;
  let audio_files := audio_files_of (os_walk W directory) in
  let total_files := length audio_files in
  if (total_files =? 0)%nat then
    print "No MP3 or MP4 files found in the directory." ;;
    ret results
  else
    print ("Found " ++ str_nat total_files ++ " audio files. Processing...") ;;
    for_in audio_files (process_file calculate_missing_bpm) results.

Definition save_metadata (metadata : list pydict) (output_file : string)
    : M unit :=
  let output_file := normpath output_file in
  try_except
    (write_json W output_file (make_report W metadata) ;;
     print (newline ++ "Metadata saved to " ++ output_file) ;;
     print ("Processed " ++ str_nat (length metadata) ++ " audio files.") ;;
     let calculated_bpm_count :=
       length (filter (fun item => eq_True (dict_get "bpm_calculated" item))
                      metadata) in
     if (0 <? calculated_bpm_count)%nat then
       print ("BPM was calculated for " ++ str_nat calculated_bpm_count
              ++ " files that didn't have BPM metadata.")
     else ret tt)
    (fun e =>
       print ("Error saving metadata to " ++ output_file ++ ": " ++ e) ;;
       let fallback_file := basename output_file in
       print ("Attempting to save to current directory as " ++ fallback_file) ;;
       write_json W fallback_file (make_report W metadata) ;;
       print ("Metadata saved to " ++ fallback_file)).

(** [main] after argument parsing: [directory], [--output] and
    [--no-bpm-calc].  The module has imported tqdm by the time [main]
    runs, so the check that would install it does nothing. *)
Definition main (directory output : string) (no_bpm_calc : bool) : M unit :=
  print ("Detected operating system: " ++ platform_system W) ;;
  no_bpm_calc <-
    (if negb no_bpm_calc then
       match import_librosa W with
       | None =>
           print "BPM calculation enabled - will calculate BPM for files that don't have it in metadata" ;;
           ret no_bpm_calc
       | Some _ =>
           print "Warning: librosa library not found. BPM calculation will be disabled." ;;
           print "To enable BPM calculation, install librosa with: pip install librosa numpy" ;;
           ret true
       end
     else ret no_bpm_calc) ;;
  metadata <- scan_directory directory (negb no_bpm_calc) ;;
  save_metadata metadata output.

End Code.
End Backend.

(* ================================================================== *)
(** ** [src/metadata_extractor.py] *)
(* ================================================================== *)

(** The older copy.  It imports librosa when the module is loaded, so
    its functions exist only in a world where that import succeeds; it
    walks the tree twice and prints a line per file instead of driving a
    progress bar. *)
Module Toplevel.
Section Code.

Context {os_path : OsPath} {console : Stdout} (W : World).

(** Loading the module: [import librosa] and [import numpy] stand at
    the top of the file. *)
Definition load : M unit := do_import_librosa W.

Definition calculate_bpm (file_path : string) : M (option Z) :=
  try_except
    (tempo <- librosa_estimate W file_path ;;
     bpm <- py_round (tempo_value tempo) ;;
     ret (Some bpm))
    (fun e =>
       print ("Error calculating BPM for " ++ file_path ++ ": " ++ e) ;;
       ret None).

Definition mp3_tag_mapping : list (string * list string) :=
  [("title", ["TIT2"]);
   ("artist", ["TPE1"]);
   ("album", ["TALB"]);
   ("year", ["TDRC"; "TYER"]);
   ("genre", ["TCON"]);
   ("track_number", ["TRCK"]);
   ("bpm", ["TBPM"]);
   ("key", ["TKEY"]);
   ("composer", ["TCOM"]);
   ("publisher", ["TPUB"]);
   ("initial_key", ["TKEY"])].

Definition mp3_probe (tags : list (string * id3frame)) (key tag_id : string)
    (metadata : pydict) : M (loop_ctl pydict) :=
  match lookup tag_id tags with
  | Some frame => ret (Break (dict_set key (VStr (frame_str frame)) metadata))
  | None => ret (Next metadata)
  end.

Definition fill_bpm (file_path : string) (calculate_missing_bpm : bool)
    (metadata : pydict) : M pydict :=
  if negb (dict_has "bpm" metadata) && calculate_missing_bpm then
    print ("BPM not found in metadata, calculating for: " ++ basename file_path) ;;
    bpm <- calculate_bpm file_path ;;
    if truthy_bpm bpm then
      let metadata := dict_set "bpm" (VStr (str_bpm bpm)) metadata in
      let metadata := dict_set "bpm_calculated" (VBool true) metadata in
      ret metadata
    else ret metadata
  else ret metadata.

(** The [try] block of [extract_mp3_metadata] up to the BPM step:
    open the file, read the stream header, probe the tags. *)
Definition mp3_container (file_path : string) : M pydict :=
  audio <- call (MP3 W file_path) ;;
  tags <- call (ID3 W file_path) ;;
  let metadata := structural file_path "mp3" audio in
  for_in mp3_tag_mapping
    (fun entry metadata =>
       metadata <- for_in (snd entry) (mp3_probe tags (fst entry)) metadata ;;
       ret (Next metadata))
    metadata.

Definition extract_mp3_metadata (file_path : string)
    (calculate_missing_bpm : bool) : M pydict :=
  try_except
    (metadata <- mp3_container file_path ;;
     fill_bpm file_path calculate_missing_bpm metadata)
    (fun e => ret (error_record file_path e)).

Definition mp4_tag_mapping : list (string * list string) :=
  [("title", ["©nam"]);
   ("artist", ["©ART"]);
   ("album", ["©alb"]);
   ("year", ["©day"]);
   ("genre", ["©gen"; "gnre"]);
   ("track_number", ["trkn"]);
   ("bpm", ["tmpo"]);
   ("composer", ["©wrt"]);
   ("comment", ["©cmt"]);
   ("copyright", ["cprt"]);
   ("album_artist", ["aART"])].

Definition mp4_probe (audio : list (string * mp4value)) (key tag_id : string)
    (metadata : pydict) : M (loop_ctl pydict) :=
  match lookup tag_id audio with
  | Some value =>
      metadata <-
        match value with
        | MList items =>
            if String.eqb tag_id "tmpo" && String.eqb key "bpm" then
              v <- first_item items ;;
              ret (dict_set key (VStr (str_atom v)) metadata)
            else
              v <- first_item items ;;
              ret (dict_set key (VStr (str_atom v)) metadata)
        | MAtom a => ret (dict_set key (VStr (str_atom a)) metadata)
        end ;;
      ret (Break metadata)
  | None => ret (Next metadata)
  end.

(** The [try] block of [extract_mp4_metadata] up to the BPM step. *)
Definition mp4_container (file_path : string) : M pydict :=
  parsed <- call (MP4 W file_path) ;;
  let audio := snd parsed in
  let metadata := structural file_path "mp4" (fst parsed) in
  for_in mp4_tag_mapping
    (fun entry metadata =>
       metadata <- for_in (snd entry) (mp4_probe audio (fst entry)) metadata ;;
       ret (Next metadata))
    metadata.

Definition extract_mp4_metadata (file_path : string)
    (calculate_missing_bpm : bool) : M pydict :=
  try_except
    (metadata <- mp4_container file_path ;;
     fill_bpm file_path calculate_missing_bpm metadata)
    (fun e => ret (error_record file_path e)).

(** The counting loop of [scan_directory]. *)
Definition count_audio_files (walk : list (string * list string)) : nat :=
  fold_left
    (fun total_files entry =>
       fold_left
         (fun total_files file =>
            if endswith_any (lower file) [".mp3"; ".mp4"; ".m4a"]
            then S total_files else total_files)
         (snd entry) total_files)
    walk 0%nat.

(** The body of [for file in files] of the processing loop; the loop
    state is [processed_files] and [results]. *)
Definition process_file (calculate_missing_bpm : bool) (total_files : nat)
    (root file : string) (st : nat * list pydict)
    : M (loop_ctl (nat * list pydict)) :=
  let file_path := join root file in
  if endswith (lower file) ".mp3" then
    let processed_files := S (fst st) in
    print ("Processing MP3 (" ++ str_nat processed_files ++ "/"
           ++ str_nat total_files ++ "): " ++ file) ;;
    metadata <- extract_mp3_metadata file_path calculate_missing_bpm ;;
    ret (Next (processed_files, (snd st ++ [metadata])%list))
  else if endswith_any (lower file) [".mp4"; ".m4a"] then
    let processed_files := S (fst st) in
    print ("Processing MP4/M4A (" ++ str_nat processed_files ++ "/"
           ++ str_nat total_files ++ "): " ++ file) ;;
    metadata <- extract_mp4_metadata file_path calculate_missing_bpm ;;
    ret (Next (processed_files, (snd st ++ [metadata])%list))
  else ret (Next st).

Definition scan_directory (directory : string) (calculate_missing_bpm : bool)
    : M (list pydict) :=
  let results : list pydict := [] in
  let directory := normpath directory in
  (if negb (isdir W directory) then
     print ("Error: " ++ directory ++ " is not a valid directory.") ;;
     sys_exit 1
   else ret tt) ;;
  print ("Scanning directory: " ++ directory) ;;
  let total_files := count_audio_files (os_walk W directory) in
  if (total_files =? 0)%nat then
    print "No MP3 or MP4 files found in the directory." ;;
    ret results
  else
    st <- for_in (os_walk W directory)
            (fun entry st =>
               st <- for_in (snd entry)
                       (process_file calculate_missing_bpm total_files (fst entry))
                       st ;;
               ret (Next st))
            (0%nat, results) ;;
    ret (snd st).

Definition save_metadata (metadata : list pydict) (output_file : string)
    : M unit :=
  let output_file := normpath output_file in
  try_except
    (write_json W output_file (make_report W metadata) ;;
     print (newline ++ "Metadata saved to " ++ output_file) ;;
     print ("Processed " ++ str_nat (length metadata) ++ " audio files.") ;;
     let calculated_bpm_count :=
       length (filter (fun item => eq_True (dict_get "bpm_calculated" item))
                      metadata) in
     if (0 <? calculated_bpm_count)%nat then
       print ("BPM was calculated for " ++ str_nat calculated_bpm_count
              ++ " files that didn't have BPM metadata.")
     else ret tt)
    (fun e =>
       print ("Error saving metadata to " ++ output_file ++ ": " ++ e) ;;
       let fallback_file := basename output_file in
       print ("Attempting to save to current directory as " ++ fallback_file) ;;
       write_json W fallback_file (make_report W metadata) ;;
       print ("Metadata saved to " ++ fallback_file)).

Definition main (directory output : string) (no_bpm_calc : bool) : M unit :=
  print ("Detected operating system: " ++ platform_system W) ;;
  no_bpm_calc <-
    (if negb no_bpm_calc then
       match import_librosa W with
       | None =>
           print "BPM calculation enabled - will calculate BPM for files that don't have it in metadata" ;;
           ret no_bpm_calc
       | Some _ =>
           print "Warning: librosa library not found. BPM calculation will be disabled." ;;
           print "To enable BPM calculation, install librosa with: pip install librosa" ;;
           ret true
       end
     else ret no_bpm_calc) ;;
  metadata <- scan_directory directory (negb no_bpm_calc) ;;
  save_metadata metadata output.

End Code.
End Toplevel.

(* ================================================================== *)
(** ** Sample worlds *)
(* ================================================================== *)

Module Samples.

Definition info44 : stream_info :=
  {| info_length := FFinite (1805 # 10);
     info_bitrate := 320000;
     info_sample_rate := 44100;
     info_channels := 2 |}.

(** About 120.2 beats per minute at 44.1 kHz. *)
Definition tempo120 : tempo := TempoLag 44100 43 eq_refl.

(** A library with a tagged MP3, an M4A without a tempo tag in a
    subdirectory, a text file, and a truncated MP3. *)
Definition music : dirtree :=
  Dir "music" ["a.MP3"; "notes.txt"; "bad.mp3"]
    [Dir "live" ["b.m4a"] []].

Definition world : World :=
  {| fs := fun p => if String.eqb p "music" then Some music else None;
     MP3 := fun p => if String.eqb p "music/a.MP3" then inr info44
                     else inl "can't sync to MPEG frame";
     ID3 := fun p => if String.eqb p "music/a.MP3"
                     then inr [("TIT2", TextFrame ["Intro"]);
                               ("TBPM", TextFrame ["128"]);
                               ("TYER", TextFrame ["1999"])]
                     else inl "no ID3 header";
     MP4 := fun p => if String.eqb p "music/live/b.m4a"
                     then inr (info44, [("trkn", MList [ATuple [3; 12]]);
                                        ("©nam", MList [AStr "Outro"])])
                     else inl "not a MP4 file";
     import_librosa := None;
     librosa_tempo := fun p => inr tempo120;
     write_error := fun p => if String.eqb p "out/report.json"
                             then Some "No such file or directory"
                             else None;
     now := "2024-01-01 00:00:00";
     platform_system := "Linux" |}.

End Samples.

(* ================================================================== *)
(** ** The tag loops as functions of the tags *)
(* ================================================================== *)

(** The value of the first identifier of [tag_ids] that [tags] holds. *)
Fixpoint first_present {A : Type} (tag_ids : list string)
    (tags : list (string * A)) : option A :=
  match tag_ids with
  | [] => None
  | tag_id :: rest =>
      match lookup tag_id tags with
      | Some v => Some v
      | None => first_present rest tags
      end
  end.

(** What one entry of the MP3 table does to the record. *)
Definition mp3_field (tags : list (string * id3frame)) (md : pydict)
    (entry : string * list string) : pydict :=
  match first_present (snd entry) tags with
  | Some frame => dict_set (fst entry) (VStr (frame_str frame)) md
  | None => md
  end.

(** The text the MP4 parser stores for a value; an empty list has none. *)
Definition mp4_text (v : mp4value) : option string :=
  match v with
  | MList (a :: _) => Some (str_atom a)
  | MList [] => None
  | MAtom a => Some (str_atom a)
  end.

(** What one entry of the MP4 table does to the record; [None] once an
    entry has hit an empty list. *)
Definition mp4_field (audio : list (string * mp4value)) (md : option pydict)
    (entry : string * list string) : option pydict :=
  match md with
  | None => None
  | Some md =>
      match first_present (snd entry) audio with
      | None => Some md
      | Some v =>
          match mp4_text v with
          | Some t => Some (dict_set (fst entry) (VStr t) md)
          | None => None
          end
      end
  end.

Definition index_error : pyexn := PyException "list index out of range".

Definition or_index_error (md : option pydict) : outcome pydict :=
  match md with
  | Some md => Ok md
  | None => Raise index_error
  end.

(* ================================================================== *)
(** ** Each function as a function of the world *)
(* ================================================================== *)

(** The outcome of the container block: the record so far, or the
    message of the exception. *)
Definition parsed_outcome (r : string + pydict) : outcome pydict :=
  match r with
  | inl e => Raise (PyException e)
  | inr md => Ok md
  end.

Definition mp3_parsed (W : World) (file_path : string) : string + pydict :=
  match MP3 W file_path with
  | inl e => inl e
  | inr info =>
      match ID3 W file_path with
      | inl e => inl e
      | inr tags =>
          inr (fold_left (mp3_field tags) Backend.mp3_tag_mapping
                 (structural file_path "mp3" info))
      end
  end.

Definition mp4_parsed (W : World) (file_path : string) : string + pydict :=
  match MP4 W file_path with
  | inl e => inl e
  | inr (info, audio) =>
      match fold_left (mp4_field audio) Backend.mp4_tag_mapping
              (Some (structural file_path "mp4" info)) with
      | Some md => inr md
      | None => inl "list index out of range"
      end
  end.

(** [round] of what the estimator library handed back. *)
Definition rounded (r : string + tempo) : option Z :=
  match r with
  | inr (TempoLag sr lag _) =>
      Some (round_half_even (Zpos (60 * sr) # (512 * lag)))
  | _ => None
  end.

(** What [Backend.calculate_bpm] returns on a path. *)
Definition estimate (W : World) (file_path : string) : option Z :=
  match import_librosa W with
  | Some _ => None
  | None => rounded (librosa_tempo W file_path)
  end.

(** The BPM step on a record, given what the estimator returns. *)
Definition with_bpm (bpm : option Z) (calculate_missing_bpm : bool)
    (md : pydict) : pydict :=
  if negb (dict_has "bpm" md) && calculate_missing_bpm then
    if truthy_bpm bpm then
      dict_set "bpm_calculated" (VBool true)
        (dict_set "bpm" (VStr (str_bpm bpm)) md)
    else md
  else md.

(** The record of a file, from the outcome of its container block. *)
Definition finish (file_path : string) (bpm : option Z)
    (calculate_missing_bpm : bool) (parsed : string + pydict) : pydict :=
  match parsed with
  | inl e => error_record file_path e
  | inr md => with_bpm bpm calculate_missing_bpm md
  end.

(** A computation that returns [a] from every state. *)
Definition returns {A : Type} (c : M A) (a : A) : Prop :=
  forall s, exists s', c s = (Ok a, s').


(* ================================================================== *)
(** ** The properties, as the specification words them *)
(* ================================================================== *)

(** Tempo Estimator: a positive integer or nothing, never an exception. *)
Definition positive_or_nothing {console : Stdout} (W : World)
    (file_path : string) (s : pystate) : Prop :=
  match fst (Backend.calculate_bpm W file_path s) with
  | Ok None => True
  | Ok (Some n) => 0 < n
  | Raise _ => False
  end.

(** File Extractor: [bpm_calculated] is set exactly when the container
    block produced a record without a [bpm] field, the flag is set and
    the estimator returned a value; the [bpm] field is then the string
    form of that value. *)
Definition bpm_calculated_iff {console : Stdout} (W : World)
    (container : string -> M pydict) (extract : string -> bool -> M pydict)
    (file_path : string) (calculate_missing_bpm : bool) (s : pystate) : Prop :=
  exists record s',
    extract file_path calculate_missing_bpm s = (Ok record, s')
    /\ (dict_get "bpm_calculated" record = Some (VBool true)
        <-> (exists md, fst (container file_path s) = Ok md
                        /\ dict_has "bpm" md = false)
            /\ calculate_missing_bpm = true
            /\ exists n, fst (Backend.calculate_bpm W file_path s)
                         = Ok (Some n))
    /\ (dict_get "bpm_calculated" record = Some (VBool true)
        -> exists n, fst (Backend.calculate_bpm W file_path s) = Ok (Some n)
                     /\ dict_get "bpm" record = Some (VStr (str_int n))).

(** What the estimator's library calls end in on a path: the message of
    the exception the [try] block of [Backend.calculate_bpm] raises, or
    the rounded tempo. *)
Definition estimation (W : World) (file_path : string) : string + Z :=
  match import_librosa W with
  | Some e => inl e
  | None =>
      match librosa_tempo W file_path with
      | inl e => inl e
      | inr TempoInf => inl "cannot convert float infinity to integer"
      | inr (TempoLag sr lag _) =>
          inr (round_half_even (Zpos (60 * sr) # (512 * lag)))
      end
  end.

(** The line the handler of [Backend.calculate_bpm] prints. *)
Definition diagnostic (file_path e : string) : string :=
  newline ++ "Error calculating BPM for " ++ file_path ++ ": " ++ e.

Module Stray.

(** A file name in Latin-1: the byte 0xE9 is no UTF-8. *)
Definition name : string := "caf" ++ String (ascii_of_nat 233) ".mp3".

(** A library holding that one file, tagged but without a tempo, which
    librosa cannot decode. *)
Definition world : World :=
  {| fs := fun p => if String.eqb p "music" then
                      Some (Dir "music" [name] [])
                    else None;
     MP3 := fun p => inr Samples.info44;
     ID3 := fun p => inr [("TIT2", TextFrame ["Drone"])];
     MP4 := fun p => inl "not a MP4 file";
     import_librosa := None;
     librosa_tempo := fun p => inl "unsupported encoding";
     write_error := fun p => None;
     now := "2024-01-01 00:00:00";
     platform_system := "Linux" |}.

End Stray.

(** The parser variant a file goes to: [true] for the MP3 one. *)
Definition container_of (W : World) (is_mp3 : bool) : string -> M pydict :=
  if is_mp3 then Backend.mp3_container W else Backend.mp4_container W.

Definition extractor_of {console : Stdout} (W : World) (is_mp3 : bool)
    : string -> bool -> M pydict :=
  if is_mp3 then Backend.extract_mp3_metadata W
  else Backend.extract_mp4_metadata W.

Definition table_of (is_mp3 : bool) : list (string * list string) :=
  if is_mp3 then Backend.mp3_tag_mapping else Backend.mp4_tag_mapping.





Module Duo.

(** An MP3 whose artist frame holds two names, and an MP4 whose tempo
    tag is present with an empty list. *)
Definition world : World :=
  {| fs := fun p => if String.eqb p "music" then
                      Some (Dir "music" ["duo.mp3"; "empty.m4a"] [])
                    else None;
     MP3 := fun p => inr Samples.info44;
     ID3 := fun p => inr [("TPE1", TextFrame ["Ann"; "Bob"])];
     MP4 := fun p => inr (Samples.info44,
                          [("©nam", MList [AStr "Outro"]);
                           ("tmpo", MList [])]);
     import_librosa := None;
     librosa_tempo := fun p => inr Samples.tempo120;
     write_error := fun p => None;
     now := "2024-01-01 00:00:00";
     platform_system := "Linux" |}.

End Duo.

(** The record a file ends up with: [item] is its path and whether it
    goes to the MP3 parser. *)
Definition record_of (W : World) (calculate_missing_bpm : bool)
    (item : string * bool) : pydict :=
  finish (fst item) (estimate W (fst item)) calculate_missing_bpm
    (if snd item then mp3_parsed W (fst item) else mp4_parsed W (fst item)).

(** The extension test of the scanner. *)
Definition eligible (file : string) : bool :=
  endswith_any (lower file) [".mp3"; ".mp4"; ".m4a"].

(** Every file name of a tree, a directory's own files first. *)
Fixpoint tree_files (t : dirtree) : list string :=
  match t with
  | Dir _ files subdirs => files ++ flat_map tree_files subdirs
  end.

(** The state after [print line]. *)
Definition after_print (line : string) (s : pystate) : pystate :=
  snd (print line s).

(** Two worlds with the same files and the same container contents;
    estimator, clock and platform may differ. *)
Definition same_tree (W1 W2 : World) : Prop :=
  (forall p, fs W1 p = fs W2 p)
  /\ (forall p, MP3 W1 p = MP3 W2 p)
  /\ (forall p, ID3 W1 p = ID3 W2 p)
  /\ (forall p, MP4 W1 p = MP4 W2 p).

Module Rerun.

(** The sample library on another day, another platform and with an
    estimator that answers differently. *)
Definition world : World :=
  {| fs := fs Samples.world;
     MP3 := MP3 Samples.world;
     ID3 := ID3 Samples.world;
     MP4 := MP4 Samples.world;
     import_librosa := Some "No module named 'librosa'";
     librosa_tempo := fun p => inr (TempoLag 44100 57 eq_refl);
     write_error := fun p => None;
     now := "2024-06-30 12:00:00";
     platform_system := "Darwin" |}.

End Rerun.

(** Output boundary: the primary target is tried first; only when it
    fails is the base name tried, once; a failure there is raised to the
    caller.  [opened] lists the write attempts of the run in order. *)
Definition save_contract {os_path : OsPath} (W : World)
    (save : list pydict -> string -> M unit) : Prop :=
  forall (records : list pydict) (output_file : string) (s : pystate),
    let target := normpath output_file in
    let r := save records output_file s in
    match write_error W target with
    | None =>
        fst r = Ok tt
        /\ opened (snd r) = (opened s ++ [target])%list
        /\ written (snd r)
           = (written s ++ [(target, make_report W records)])%list
    | Some _ =>
        opened (snd r) = (opened s ++ [target; basename target])%list
        /\ match write_error W (basename target) with
           | None =>
               fst r = Ok tt
               /\ written (snd r)
                  = (written s
                     ++ [(basename target, make_report W records)])%list
           | Some e =>
               fst r = Raise (PyException e)
               /\ written (snd r) = written s
           end
    end.

(** The item the scanner makes of a file name under a directory, if the
    name is eligible. *)
Definition file_items {os_path : OsPath} (root file : string)
    : list (string * bool) :=
  if endswith_any (lower file) [".mp3"; ".mp4"; ".m4a"]
  then [(join root file, endswith (lower file) ".mp3")]
  else [].

(** The record the older copy makes of a file: its estimator has no
    import step of its own. *)
Definition toplevel_record_of (W : World) (calculate_missing_bpm : bool)
    (item : string * bool) : pydict :=
  finish (fst item) (rounded (librosa_tempo W (fst item)))
    calculate_missing_bpm
    (if snd item then mp3_parsed W (fst item) else mp4_parsed W (fst item)).

(** The loop state of the older copy's processing loop after the items
    of some files: [processed_files] and [results]. *)
Definition advance (W : World) (calculate_missing_bpm : bool)
    (st : nat * list pydict) (items : list (string * bool))
    : nat * list pydict :=
  ((length items + fst st)%nat,
   (snd st ++ map (toplevel_record_of W calculate_missing_bpm) items)%list).


(* ================================================================== *)
(** ** Further properties of the pipeline *)
(* ================================================================== *)

(** A computation that returns [a] from every state, hands exactly the
    paths [est] to the estimator, in that order, and neither opens a
    file for writing nor writes one. *)
Definition runs_with {A : Type} (c : M A) (a : A) (est : list string) : Prop :=
  forall s, exists s',
    c s = (Ok a, s')
    /\ estimated s' = (estimated s ++ est)%list
    /\ opened s' = opened s
    /\ written s' = written s.

(** The outcome of the container block of a file. *)
Definition parsed_of (W : World) (item : string * bool) : string + pydict :=
  if snd item then mp3_parsed W (fst item) else mp4_parsed W (fst item).

(** The paths [Backend.calculate_bpm] hands to librosa when called on a
    path: none when the import inside its [try] block fails. *)
Definition estimator_reached (W : World) (file_path : string) : list string :=
  match import_librosa W with
  | None => [file_path]
  | Some _ => []
  end.

(** The estimator calls the extraction of one file makes. *)
Definition estimator_calls (W : World) (calculate_missing_bpm : bool)
    (item : string * bool) : list string :=
  match parsed_of W item with
  | inr md =>
      if negb (dict_has "bpm" md) && calculate_missing_bpm
      then estimator_reached W (fst item)
      else []
  | inl _ => []
  end.

(** The stream header the parser of a file read, if it could. *)
Definition header_of (W : World) (is_mp3 : bool) (file_path : string)
    : option stream_info :=
  if is_mp3 then
    match MP3 W file_path with
    | inr info => Some info
    | inl _ => None
    end
  else
    match MP4 W file_path with
    | inr (info, _) => Some info
    | inl _ => None
    end.

(** The state once [Backend.calculate_bpm] has made its library calls
    on a path: the path is on record unless the import failed first. *)
Definition after_estimate (W : World) (file_path : string) (s : pystate)
    : pystate :=
  match import_librosa W with
  | Some _ => s
  | None => {| stdout := stdout s;
               estimated := (estimated s ++ [file_path])%list;
               opened := opened s;
               written := written s |}
  end.

(** What the extractor of a file does, on any stdout: the error record
    of a failed container block; else the record of the block, with the
    tempo step when the record has no [bpm] and the flag is set.  There
    a failed estimation prints its diagnostic and leaves the record as
    it is, unless stdout refuses the line: then that exception is what
    the extractor's handler turns into the error record. *)
Definition extraction {console : Stdout} (W : World) (is_mp3 : bool)
    (file_path : string) (calculate_missing_bpm : bool) (s : pystate)
    : outcome pydict * pystate :=
  match parsed_of W (file_path, is_mp3) with
  | inl e => (Ok (error_record file_path e), s)
  | inr md =>
      if negb (dict_has "bpm" md) && calculate_missing_bpm then
        match estimation W file_path with
        | inr n =>
            (Ok (with_bpm (Some n) calculate_missing_bpm md),
             after_estimate W file_path s)
        | inl e =>
            match stdout_error (diagnostic file_path e) with
            | None =>
                (Ok md,
                 after_print (diagnostic file_path e)
                   (after_estimate W file_path s))
            | Some msg =>
                (Ok (error_record file_path msg),
                 after_estimate W file_path s)
            end
        end
      else (Ok md, s)
  end.

(** The [file_type] each parser writes. *)
Definition file_type_of (is_mp3 : bool) : string :=
  if is_mp3 then "mp3" else "mp4".

(** Two worlds with the same tree that may differ in what the libraries
    say about the one file at [file_path]. *)
Definition same_but_for (file_path : string) (W1 W2 : World) : Prop :=
  (forall p, fs W1 p = fs W2 p)
  /\ import_librosa W1 = import_librosa W2
  /\ forall p, p <> file_path ->
       MP3 W1 p = MP3 W2 p /\ ID3 W1 p = ID3 W2 p /\ MP4 W1 p = MP4 W2 p
       /\ librosa_tempo W1 p = librosa_tempo W2 p.


Module Broken.

(** The sample library with the tagged MP3 gone bad and its estimator
    answering differently. *)
Definition world : World :=
  {| fs := fs Samples.world;
     MP3 := fun p => if String.eqb p "music/a.MP3" then inl "truncated"
                     else MP3 Samples.world p;
     ID3 := ID3 Samples.world;
     MP4 := MP4 Samples.world;
     import_librosa := None;
     librosa_tempo := fun p => if String.eqb p "music/a.MP3"
                               then inl "no backend"
                               else librosa_tempo Samples.world p;
     write_error := write_error Samples.world;
     now := now Samples.world;
     platform_system := platform_system Samples.world |}.

End Broken.

Module Deaf.

(** The sample library where librosa is importable but cannot decode
    anything. *)
Definition world : World :=
  {| fs := fs Samples.world;
     MP3 := MP3 Samples.world;
     ID3 := ID3 Samples.world;
     MP4 := MP4 Samples.world;
     import_librosa := None;
     librosa_tempo := fun p => inl "unsupported encoding";
     write_error := fun p => Some "Permission denied";
     now := now Samples.world;
     platform_system := platform_system Samples.world |}.

End Deaf.



(* ================================================================== *)
(** ** [src/backend/main.py] *)
(* ================================================================== *)

Module Api.

(** The names a module object of each copy of the extractor has once it
    is loaded: what it imports, what it defines, and the attributes the
    interpreter gives every module. *)
Definition dunder_names : list string :=
  ["__name__"; "__doc__"; "__package__"; "__loader__"; "__spec__";
   "__file__"; "__cached__"; "__builtins__"].

Definition backend_names : list string :=
  (["os"; "sys"; "argparse"; "json"; "MP3"; "MP4"; "ID3"; "datetime";
    "platform"; "time"; "warnings"; "tqdm";
    "calculate_bpm"; "extract_mp3_metadata"; "extract_mp4_metadata";
    "scan_directory"; "save_metadata"; "main"] ++ dunder_names)%list.

Definition toplevel_names : list string :=
  (["os"; "sys"; "argparse"; "json"; "MP3"; "MP4"; "ID3"; "datetime";
    "platform"; "librosa"; "np"; "warnings";
    "calculate_bpm"; "extract_mp3_metadata"; "extract_mp4_metadata";
    "scan_directory"; "save_metadata"; "main"] ++ dunder_names)%list.

(** The [metadata_extractor] module the import resolves to. *)
Definition module_names (backend : bool) : list string :=
  if backend then backend_names else toplevel_names.

(** What the handler answers: the parsed document, or an HTTP error. *)
Inductive answer (J : Type) : Type :=
| Returned (data : J)
| HTTPException (status_code : Z) (detail : string).
Arguments Returned {J} data.
Arguments HTTPException {J} status_code detail.

Section Endpoint.

(** The type of a parsed JSON document. *)
Variable J : Type.

(** [METADATA_FILE]: absent, or present with what opening and parsing
    it gives (a document, or the message of the exception). *)
Definition file_state : Type := option (string + J).

(** Importing the module itself may raise. *)
Variable import_error : option string.
(** The names of the module, and the file it was loaded from. *)
Variable names : list string.
Variable module_file : string.
(** Calling an attribute of the module with no arguments: it raises or
    returns, and may leave the metadata file in another state. *)
Variable call0 : string -> file_state -> (string + unit) * file_state.

(** [from metadata_extractor import name]. *)
Definition from_import (name : string) : string + unit :=
  match import_error with
  | Some e => inl e
  | None =>
      if existsb (String.eqb name) names then inr tt
      else inl ("cannot import name '" ++ name ++ "' from 'metadata_extractor' ("
                ++ module_file ++ ")")
  end.

(** [with METADATA_FILE.open("r") as file: data = json.load(file)]
    inside its [try], with the prefix of the handler's message. *)
Definition read_or_500 (prefix : string) (content : string + J) : answer J :=
  match content with
  | inr data => Returned data
  | inl e => HTTPException 500 (prefix ++ e)
  end.

Definition get_audio_metadata (file : file_state) : answer J * file_state :=
  match file with
  | Some content => (read_or_500 "Error reading metadata: " content, file)
  | None =>
      match from_import "extract_metadata" with
      | inl e => (HTTPException 500 ("Error generating metadata: " ++ e), file)
      | inr _ =>
          match call0 "extract_metadata" file with
          | (inl e, file') =>
              (HTTPException 500 ("Error generating metadata: " ++ e), file')
          | (inr _, file') =>
              match file' with
              | Some content =>
                  (read_or_500 "Error reading generated metadata: " content,
                   file')
              | None =>
                  (HTTPException 500 "Metadata file was not created.", file')
              end
          end
      end
  end.

End Endpoint.

End Api.


(* ================================================================== *)
(** ** Failing libraries, odd roots and stray names *)
(* ================================================================== *)

(** Whether some field's first identifier present maps to an empty
    list. *)
Definition empty_list_tag (audio : list (string * mp4value)) : bool :=
  existsb
    (fun entry =>
       match first_present (snd entry) audio with
       | Some (MList []) => true
       | _ => false
       end)
    Backend.mp4_tag_mapping.

(** The failure of the libraries on a file, if they fail: opening it or
    parsing its header ([MP3], [MP4]), or reading its tags ([ID3], or
    the first element of an MP4 tag value). *)
Definition library_failure (W : World) (is_mp3 : bool) (file_path : string)
    : option string :=
  if is_mp3 then
    match MP3 W file_path with
    | inl e => Some e
    | inr _ =>
        match ID3 W file_path with
        | inl e => Some e
        | inr _ => None
        end
    end
  else
    match MP4 W file_path with
    | inl e => Some e
    | inr (_, audio) =>
        if empty_list_tag audio then Some "list index out of range" else None
    end.

(** The paths of the eligible files of a tree in the order a top-down
    walk meets them: a directory's own files in listing order, then its
    subdirectories one after the other. *)
Fixpoint eligible_paths {os_path : OsPath} (top : string) (t : dirtree)
    : list string :=
  match t with
  | Dir _ files subdirs =>
      (map (join top) (filter eligible files)
       ++ flat_map (fun sub =>
                      match sub with
                      | Dir name _ _ => eligible_paths (join top name) sub
                      end) subdirs)%list
  end.

(** As the specification words it: a root that is not a directory is
    fatal. *)
Definition fatal_off_directories {os_path : OsPath} (W : World)
    (directory : string) (calculate_missing_bpm : bool) (s : pystate)
    : Prop :=
  fs W directory = None ->
  fst (Backend.scan_directory W directory calculate_missing_bpm s)
  = Raise (SystemExit 1).

(** As claimed of the two copies: the same outcome of the scan. *)
Definition copies_agree {os_path : OsPath} {console : Stdout} (W : World)
    (directory : string) (calculate_missing_bpm : bool) (s1 s2 : pystate)
    : Prop :=
  fst (Toplevel.scan_directory W directory calculate_missing_bpm s1)
  = fst (Backend.scan_directory W directory calculate_missing_bpm s2).

(** The outcome of a computation that starts by printing a line. *)
Definition printing {console : Stdout} {A : Type} (line : string)
    (then_ : outcome A) : outcome A :=
  match stdout_error line with
  | Some msg => Raise (PyException msg)
  | None => then_
  end.

(** The record of a file on any stdout: what [extraction] returns. *)
Definition record_on {console : Stdout} (W : World)
    (calculate_missing_bpm : bool) (item : string * bool) : pydict :=
  match parsed_of W item with
  | inl e => error_record (fst item) e
  | inr md =>
      if negb (dict_has "bpm" md) && calculate_missing_bpm then
        match estimation W (fst item) with
        | inr n => with_bpm (Some n) calculate_missing_bpm md
        | inl e =>
            match stdout_error (diagnostic (fst item) e) with
            | None => md
            | Some msg => error_record (fst item) msg
            end
        end
      else md
  end.

(** What [Backend.scan_directory] ends in on any stdout, given the
    records of the eligible files: it prints the root, then that it is
    looking for files, then how many it found, and any of these lines
    may be refused. *)
Definition scan_outcome {os_path : OsPath} {console : Stdout} (W : World)
    (directory : string) (records : list pydict) : outcome (list pydict) :=
  if isdir W (normpath directory) then
    printing ("Scanning directory: " ++ normpath directory)
      (printing "Finding audio files..."
         (match records with
          | [] => printing "No MP3 or MP4 files found in the directory." (Ok [])
          | _ => printing ("Found " ++ str_nat (length records)
                           ++ " audio files. Processing...") (Ok records)
          end))
  else
    printing ("Error: " ++ normpath directory ++ " is not a valid directory.")
      (Raise (SystemExit 1)).

Module Untagged.

(** An MP3 with a sound stream and no ID3 tag at all. *)
Definition world : World :=
  {| fs := fun p => if String.eqb p "music" then
                      Some (Dir "music" ["raw.mp3"] [])
                    else None;
     MP3 := fun p => inr Samples.info44;
     ID3 := fun p => inl "music/raw.mp3 doesn't start with an ID3 tag";
     MP4 := fun p => inl "not a MP4 file";
     import_librosa := None;
     librosa_tempo := fun p => inr Samples.tempo120;
     write_error := fun p => None;
     now := "2024-01-01 00:00:00";
     platform_system := "Linux" |}.

End Untagged.

Module Quiet.

(** A tree without a single eligible file. *)
Definition docs : dirtree :=
  Dir "docs" ["readme.txt"; "mp3"] [Dir "img" ["cover.png"] []].

Definition world : World :=
  {| fs := fun p => if String.eqb p "docs" then Some docs else None;
     MP3 := fun p => inl "can't sync to MPEG frame";
     ID3 := fun p => inl "no ID3 header";
     MP4 := fun p => inl "not a MP4 file";
     import_librosa := None;
     librosa_tempo := fun p => inr Samples.tempo120;
     write_error := fun p => None;
     now := "2024-01-01 00:00:00";
     platform_system := "Linux" |}.

End Quiet.

Module Here.

(** A process whose current directory holds one MP3; the empty path is
    no directory, the path [.] is. *)
Definition world : World :=
  {| fs := fun p => if String.eqb p "." then
                      Some (Dir "." ["a.mp3"] [])
                    else None;
     MP3 := fun p => inr Samples.info44;
     ID3 := fun p => inr [("TIT2", TextFrame ["Intro"])];
     MP4 := fun p => inl "not a MP4 file";
     import_librosa := None;
     librosa_tempo := fun p => inr Samples.tempo120;
     write_error := fun p => None;
     now := "2024-01-01 00:00:00";
     platform_system := "Linux" |}.

End Here.

(** Directory Scanner and report, on a tree [t] found at the normalised
    root: one record per eligible file, in discovery order and carrying
    that file's path; as many records as the tree has eligible files,
    none when it has none; whenever [save_metadata] returns, it has
    written exactly one report, with that count and those records; and
    [main] returns when the output path can be written, and whenever it
    returns it has written exactly one report with that count. *)
Definition scan_report_contract {os_path : OsPath} {console : Stdout}
    (W : World) (directory : string) (calculate_missing_bpm : bool)
    (t : dirtree) (s : pystate) : Prop :=
  let N := length (filter eligible (tree_files t)) in
  exists results s',
    Backend.scan_directory W directory calculate_missing_bpm s
    = (Ok results, s')
    /\ length results = N
    /\ map (dict_get "file_path") results
       = map (fun p => Some (VStr p)) (eligible_paths (normpath directory) t)
    /\ (N = 0%nat -> results = [])
    /\ (forall output s0,
          fst (Backend.save_metadata W results output s0) = Ok tt ->
          exists path,
            written (snd (Backend.save_metadata W results output s0))
            = (written s0
               ++ [(path, {| timestamp := now W;
                             system := platform_system W;
                             file_count := Z.of_nat N;
                             metadata := results |})])%list)
    /\ (forall output no_bpm_calc s0,
          (write_error W (normpath output) = None ->
           fst (Backend.main W directory output no_bpm_calc s0) = Ok tt)
          /\ (fst (Backend.main W directory output no_bpm_calc s0) = Ok tt ->
              exists path doc,
                written (snd (Backend.main W directory output no_bpm_calc s0))
                = (written s0 ++ [(path, doc)])%list
                /\ file_count doc = Z.of_nat N
                /\ length (metadata doc) = N
                /\ map (dict_get "file_path") (metadata doc)
                   = map (fun p => Some (VStr p))
                       (eligible_paths (normpath directory) t))).

Module Cafe.

(** A directory whose name is in Latin-1, holding one MP3. *)
Definition root : string := "caf" ++ String (ascii_of_nat 233) "".

Definition tree : dirtree := Dir root ["a.mp3"] [].

Definition world : World :=
  {| fs := fun p => if String.eqb p root then Some tree else None;
     MP3 := fun p => inr Samples.info44;
     ID3 := fun p => inr [("TIT2", TextFrame ["Intro"])];
     MP4 := fun p => inl "not a MP4 file";
     import_librosa := None;
     librosa_tempo := fun p => inr Samples.tempo120;
     write_error := fun p => None;
     now := "2024-01-01 00:00:00";
     platform_system := "Linux" |}.

End Cafe.

(** The exception of stdout that fails a parsed file, if there is one:
    the file has no tempo tag, the flag is set, the estimation failed
    and stdout refuses the diagnostic line of the estimator's handler. *)
Definition refused_diagnostic {console : Stdout} (W : World)
    (file_path : string) (calculate_missing_bpm : bool) (md : pydict)
    : option string :=
  if negb (dict_has "bpm" md) && calculate_missing_bpm then
    match estimation W file_path with
    | inl e => stdout_error (diagnostic file_path e)
    | inr _ => None
    end
  else None.
(* ================================================================== *)
(** ** Dictionaries *)
(* ================================================================== *)

Lemma dict_get_set_same key v d :
  dict_get key (dict_set key v d) = Some v.
Proof.
  unfold dict_get.
  induction d as [|[k w] d IH]; simpl.
  - now rewrite String.eqb_refl.
  - destruct (String.eqb k key) eqn:E; simpl; rewrite E; auto.
Qed.

Lemma dict_get_set_other key key' v d :
  key' <> key -> dict_get key' (dict_set key v d) = dict_get key' d.
Proof.
  intros Hne. unfold dict_get.
  induction d as [|[k w] d IH]; simpl.
  - destruct (String.eqb_spec key key'); congruence.
  - destruct (String.eqb_spec k key) as [->|Hk]; simpl.
    + destruct (String.eqb_spec key key'); congruence.
    + destruct (String.eqb_spec k key'); auto.
Qed.

Lemma dict_has_get key (d : pydict) :
  dict_has key d = false <-> dict_get key d = None.
Proof.
  unfold dict_has, dict_get. destruct (lookup key d); split; congruence.
Qed.

(* ================================================================== *)
(** ** The loops and the functions, run *)
(* ================================================================== *)

Ltac run :=
  unfold bind, ret, raise, sys_exit, call, try_except, print, first_item; simpl.

Section TagLoops.

Variable tags : list (string * id3frame).
Variable audio : list (string * mp4value).

Lemma mp3_inner_loop key tag_ids md s :
  for_in tag_ids (Backend.mp3_probe tags key) md s
  = (Ok (mp3_field tags md (key, tag_ids)), s).
Proof.
  unfold mp3_field; simpl.
  induction tag_ids as [|t rest IH]; simpl; [reflexivity|].
  unfold Backend.mp3_probe at 1. run.
  destruct (lookup t tags); [reflexivity | apply IH].
Qed.

Lemma mp3_outer_loop mapping md s :
  for_in mapping
    (fun entry metadata =>
       metadata <- for_in (snd entry) (Backend.mp3_probe tags (fst entry)) metadata ;;
       ret (Next metadata)) md s
  = (Ok (fold_left (mp3_field tags) mapping md), s).
Proof.
  revert md. induction mapping as [|[key ids] mapping IH]; intros md; simpl;
    [reflexivity|].
  unfold bind at 1. unfold bind at 1. rewrite mp3_inner_loop. run. apply IH.
Qed.

Lemma mp4_inner_loop key tag_ids md s :
  for_in tag_ids (Backend.mp4_probe audio key) md s
  = (or_index_error (mp4_field audio (Some md) (key, tag_ids)), s).
Proof.
  unfold mp4_field; simpl.
  induction tag_ids as [|t rest IH]; simpl; [reflexivity|].
  unfold Backend.mp4_probe at 1. run.
  destruct (lookup t audio) as [[[|a items]|a]|]; simpl;
    try destruct (String.eqb t "tmpo" && String.eqb key "bpm");
    simpl; try reflexivity.
  all: apply IH.
Qed.

Lemma mp4_field_none mapping :
  fold_left (mp4_field audio) mapping None = None.
Proof. induction mapping; simpl; auto. Qed.

Lemma mp4_outer_loop mapping md s :
  for_in mapping
    (fun entry metadata =>
       metadata <- for_in (snd entry) (Backend.mp4_probe audio (fst entry)) metadata ;;
       ret (Next metadata)) md s
  = (or_index_error (fold_left (mp4_field audio) mapping (Some md)), s).
Proof.
  revert md. induction mapping as [|[key ids] mapping IH]; intros md;
    [reflexivity|].
  cbn [for_in fold_left fst snd].
  unfold bind at 1. unfold bind at 1. rewrite mp4_inner_loop.
  destruct (mp4_field audio (Some md) (key, ids)) as [md'|] eqn:E; simpl.
  - run. apply IH.
  - now rewrite mp4_field_none.
Qed.

End TagLoops.

Lemma returns_ret {A : Type} (a : A) : returns (ret a) a.
Proof. intros s. now exists s. Qed.

Lemma returns_print line : returns (print line) tt.
Proof. intros s. eexists. reflexivity. Qed.

Lemma returns_bind {A B : Type} (c : M A) (k : A -> M B) a b :
  returns c a -> returns (k a) b -> returns (bind c k) b.
Proof.
  intros Hc Hk s. destruct (Hc s) as [s1 E1]. destruct (Hk s1) as [s2 E2].
  exists s2. unfold bind. now rewrite E1.
Qed.

Lemma returns_for_in {A S : Type} (body : A -> S -> M (loop_ctl S))
    (f : S -> A -> S) :
  (forall x acc, returns (body x acc) (Next (f acc x))) ->
  forall xs acc, returns (for_in xs body acc) (fold_left f xs acc).
Proof.
  intros Hbody xs. induction xs as [|x xs IH]; intros acc; simpl.
  - apply returns_ret.
  - eapply returns_bind; [apply Hbody | apply IH].
Qed.

Create HintDb py.
#[local] Hint Resolve returns_ret returns_print : py.

Section BackendFacts.

Context {os_path : OsPath} (W : World).

Lemma mp3_container_run p s :
  Backend.mp3_container W p s = (parsed_outcome (mp3_parsed W p), s).
Proof.
  unfold Backend.mp3_container, mp3_parsed. unfold bind at 1.
  destruct (MP3 W p) as [e|info]; [reflexivity|]. cbn [call ret].
  unfold bind at 1.
  destruct (ID3 W p) as [e|tags]; [reflexivity|]. cbn [call ret].
  apply mp3_outer_loop.
Qed.

Lemma mp4_container_run p s :
  Backend.mp4_container W p s = (parsed_outcome (mp4_parsed W p), s).
Proof.
  unfold Backend.mp4_container, mp4_parsed. unfold bind at 1.
  destruct (MP4 W p) as [e|[info audio]]; [reflexivity|].
  cbn [call ret fst snd].
  rewrite mp4_outer_loop.
  now destruct (fold_left _ _ _).
Qed.

(** [calculate_bpm] returns from every state, with the state's
    documents untouched. *)
Lemma calculate_bpm_run p s :
  exists s', Backend.calculate_bpm W p s = (Ok (estimate W p), s')
             /\ written s' = written s /\ opened s' = opened s.
Proof.
  unfold Backend.calculate_bpm, estimate, do_import_librosa, librosa_estimate.
  run.
  destruct (import_librosa W) as [msg|]; simpl.
  - eexists; split; [reflexivity | auto].
  - destruct (librosa_tempo W p) as [e|[|sr lag Hw]]; simpl;
      eexists; (split; [reflexivity | auto]).
Qed.

Lemma calculate_bpm_returns p :
  returns (Backend.calculate_bpm W p) (estimate W p).
Proof. intros s. destruct (calculate_bpm_run p s) as (s' & E & _). eauto. Qed.

Lemma fill_bpm_returns p flag md :
  returns (Backend.fill_bpm W p flag md) (with_bpm (estimate W p) flag md).
Proof.
  unfold Backend.fill_bpm, with_bpm.
  destruct (negb (dict_has "bpm" md) && flag); [|apply returns_ret].
  eapply returns_bind; [apply calculate_bpm_returns|].
  destruct (truthy_bpm (estimate W p)); apply returns_ret.
Qed.

Lemma fill_bpm_off p md s :
  Backend.fill_bpm W p false md s = (Ok md, s).
Proof.
  unfold Backend.fill_bpm. now rewrite andb_false_r.
Qed.

Lemma extract_mp3_returns p flag :
  returns (Backend.extract_mp3_metadata W p flag)
          (finish p (estimate W p) flag (mp3_parsed W p)).
Proof.
  intros s. unfold Backend.extract_mp3_metadata, try_except, bind.
  rewrite mp3_container_run.
  destruct (mp3_parsed W p) as [e|md]; simpl.
  - now exists s.
  - destruct (fill_bpm_returns p flag md s) as [s' E]. rewrite E. now exists s'.
Qed.

Lemma extract_mp4_returns p flag :
  returns (Backend.extract_mp4_metadata W p flag)
          (finish p (estimate W p) flag (mp4_parsed W p)).
Proof.
  intros s. unfold Backend.extract_mp4_metadata, try_except, bind.
  rewrite mp4_container_run.
  destruct (mp4_parsed W p) as [e|md]; simpl.
  - now exists s.
  - destruct (fill_bpm_returns p flag md s) as [s' E]. rewrite E. now exists s'.
Qed.

End BackendFacts.

Lemma container_of_run W is_mp3 p s :
  container_of W is_mp3 p s
  = (parsed_outcome (if is_mp3 then mp3_parsed W p else mp4_parsed W p), s).
Proof.
  destruct is_mp3; [apply mp3_container_run | apply mp4_container_run].
Qed.

(** The same functions on any stdout. *)
(** A stdout that accepts every line is the accepting one. *)
Lemma accepting_console (console : Stdout) :
  (forall line, stdout_error line = None) -> console = accepting_stdout.
Proof.
  destruct console as [refuses]. cbn [stdout_error]. intros H.
  unfold accepting_stdout. f_equal. apply functional_extensionality. exact H.
Qed.

Section AnyStdout.

Context {console : Stdout} (W : World).

Lemma calculate_bpm_outcome p s :
  Backend.calculate_bpm W p s
  = match estimation W p with
    | inr n => (Ok (Some n), after_estimate W p s)
    | inl e =>
        match stdout_error (diagnostic p e) with
        | None => (Ok None, after_print (diagnostic p e) (after_estimate W p s))
        | Some msg => (Raise (PyException msg), after_estimate W p s)
        end
    end.
Proof.
  unfold Backend.calculate_bpm, estimation, after_estimate, do_import_librosa,
    librosa_estimate, try_except, bind, print, diagnostic, after_print.
  destruct (import_librosa W) as [msg|]; cbn.
  - now destruct (stdout_error _).
  - destruct (librosa_tempo W p) as [e|[|sr lag Hw]]; cbn;
      try reflexivity; now destruct (stdout_error _).
Qed.

Lemma extractor_outcome is_mp3 p flag s :
  extractor_of W is_mp3 p flag s = extraction W is_mp3 p flag s.
Proof.
  unfold extraction, parsed_of. cbn [fst snd].
  destruct is_mp3; cbn [extractor_of];
    [unfold Backend.extract_mp3_metadata | unfold Backend.extract_mp4_metadata];
    unfold try_except at 1, bind at 1;
    [rewrite mp3_container_run; destruct (mp3_parsed W p) as [e|md]
    |rewrite mp4_container_run; destruct (mp4_parsed W p) as [e|md]];
    cbn [parsed_outcome]; try reflexivity;
    unfold Backend.fill_bpm, with_bpm;
    (destruct (negb (dict_has "bpm" md) && flag); [|reflexivity]);
    unfold bind at 1; rewrite calculate_bpm_outcome;
    (destruct (estimation W p) as [e|n];
     [destruct (stdout_error (diagnostic p e)); reflexivity|]);
    cbn [truthy_bpm str_bpm]; destruct (negb (n =? 0)); reflexivity.
Qed.

End AnyStdout.

(* ================================================================== *)
(** ** Sample runs *)
(* ================================================================== *)

Example round_ties_to_even :
  map round_half_even [1 # 2; 3 # 2; 5 # 2; -1 # 2; 11984 # 100]%Q
  = [0; 2; 2; 0; 120].
Proof. reflexivity. Qed.

Example extension_test :
  map eligible ["a.MP3"; "b.m4a"; "c.Mp4"; "notes.txt"; "mp3"; ".mp3"]
  = [true; true; true; false; false; true].
Proof. reflexivity. Qed.

Example normpath_samples :
  map posixpath.normpath ["music/"; "a//b/../c"; ""; "/../x"; "../.."]
  = ["music"; "a/c"; "."; "/x"; "../.."].
Proof. reflexivity. Qed.

Example sample_scan_paths :
  match fst (Backend.scan_directory Samples.world "music/" true initial_state) with
  | Ok results => map (dict_get "file_path") results
  | Raise _ => []
  end
  = [Some (VStr "music/a.MP3"); Some (VStr "music/bad.mp3");
     Some (VStr "music/live/b.m4a")].
Proof. reflexivity. Qed.

Example sample_tagged_mp3 :
  fst (Backend.extract_mp3_metadata Samples.world "music/a.MP3" true
         initial_state)
  = Ok (structural "music/a.MP3" "mp3" Samples.info44
        ++ [("title", VStr "Intro"); ("year", VStr "1999");
            ("bpm", VStr "128")])%list.
Proof. reflexivity. Qed.

Example sample_estimated_m4a :
  Backend.extract_mp4_metadata Samples.world "music/live/b.m4a" true
    initial_state
  = (Ok (structural "music/live/b.m4a" "mp4" Samples.info44
         ++ [("title", VStr "Outro"); ("track_number", VStr "(3, 12)");
             ("bpm", VStr "120"); ("bpm_calculated", VBool true)])%list,
     {| stdout := []; estimated := ["music/live/b.m4a"];
        opened := []; written := [] |}).
Proof. reflexivity. Qed.

Example sample_fallback_write :
  let s := snd (Backend.save_metadata Samples.world [] "out/report.json"
                  initial_state) in
  opened s = ["out/report.json"; "report.json"]
  /\ map fst (written s) = ["report.json"].
Proof. split; reflexivity. Qed.

(* ================================================================== *)
(** ** Tempo Estimator *)
(* ================================================================== *)

(** Rounding gives a positive integer exactly above one half. *)
Lemma round_half_even_pos q : 0 < round_half_even q <-> (1 # 2 < q)%Q.
Proof.
  unfold round_half_even.
  pose proof (Qfloor_le q) as Hlo. pose proof (Qlt_floor q) as Hhi.
  set (f := Qfloor q) in *.
  rewrite inject_Z_plus in Hhi. change (inject_Z 1) with 1%Q in Hhi.
  destruct (Z_lt_le_dec f 0) as [Hneg|Hnn].
  - assert (inject_Z f <= -1)%Q as Hf
      by (change (-1)%Q with (inject_Z (-1)); rewrite <- Zle_Qle; lia).
    split.
    + destruct (Qcompare _ _); try destruct (Z.even f); lia.
    + intros H. lra.
  - destruct (Z.eq_dec f 0) as [Hz|Hnz].
    + rewrite Hz in *. change (inject_Z 0) with 0%Q in *.
      destruct (Qcompare (q - 0) (1 # 2)) eqn:E; simpl.
      * apply Qeq_alt in E. split; [lia | lra].
      * apply Qlt_alt in E. split; [lia | lra].
      * apply Qgt_alt in E. split; [lra | lia].
    + assert (1 <= inject_Z f)%Q as Hf
        by (change 1%Q with (inject_Z 1); rewrite <- Zle_Qle; lia).
      split.
      * intros _. lra.
      * intros _. destruct (Qcompare _ _); try destruct (Z.even f); lia.
Qed.

(** Every tempo of librosa's table rounds to a positive integer. *)
Lemma table_tempo_positive sr lag :
  (512 * (lag + 1) <=? 8 * sr)%positive = true ->
  0 < round_half_even (Zpos (60 * sr) # (512 * lag)).
Proof.
  intros Hw. apply round_half_even_pos.
  apply Pos.leb_le in Hw. unfold Qlt. simpl. lia.
Qed.

Lemma estimation_positive W p n : estimation W p = inr n -> 0 < n.
Proof.
  unfold estimation.
  destruct (import_librosa W); [discriminate|].
  destruct (librosa_tempo W p) as [e|[|sr lag Hw]]; try discriminate.
  intros [= <-]. now apply table_tempo_positive.
Qed.

(** C2: the handler of [calculate_bpm] is there so that a failed
    estimation gives no value instead of an exception, but it prints the
    path before it returns.  On a file whose name is not UTF-8 and which
    librosa cannot decode, under a strict UTF-8 stdout, that [print]
    raises inside the handler: [calculate_bpm] raises to its caller, and
    the extractor, which had the tags of the file, returns the error
    record instead. *)
Theorem calculate_bpm_raises_on_stray_name :
  fst (Backend.calculate_bpm (console := strict_stdout) Stray.world
         ("music/" ++ Stray.name) initial_state)
  = Raise (PyException
      "'utf-8' codec can't encode character '\udce9' in position 36: surrogates not allowed")
  /\ ~ positive_or_nothing (console := strict_stdout) Stray.world
        ("music/" ++ Stray.name) initial_state
  /\ fst (Backend.extract_mp3_metadata (console := strict_stdout) Stray.world
            ("music/" ++ Stray.name) true initial_state)
     = Ok [("file_path", VStr ("music/" ++ Stray.name));
           ("error",
            VStr "'utf-8' codec can't encode character '\udce9' in position 36: surrogates not allowed")]
  /\ dict_get "title"
       (match fst (Backend.extract_mp3_metadata (console := strict_stdout)
                     Stray.world ("music/" ++ Stray.name) false initial_state)
        with
        | Ok record => record
        | Raise _ => []
        end)
     = Some (VStr "Drone").
Proof.
  split; [reflexivity|]. split; [|split; reflexivity].
  vm_compute. intros H. exact H.
Qed.

(** X14: on any stdout [calculate_bpm] never returns zero or a negative
    value.  It returns a positive integer, the rounded tempo; or
    nothing when the import, the decoding or the estimation fails and
    the diagnostic line is printed; it raises to its caller only when
    stdout refuses that diagnostic line, and then with stdout's
    exception. *)
Theorem calculate_bpm_positive_or_nothing {console : Stdout} (W : World)
    (p : string) (s : pystate) :
  match fst (Backend.calculate_bpm W p s) with
  | Ok (Some n) => 0 < n /\ estimation W p = inr n
  | Ok None =>
      exists e, estimation W p = inl e
                /\ stdout_error (diagnostic p e) = None
  | Raise x =>
      exists e msg,
        estimation W p = inl e
        /\ stdout_error (diagnostic p e) = Some msg
        /\ x = PyException msg
  end.
Proof.
  rewrite calculate_bpm_outcome.
  destruct (estimation W p) as [e|n] eqn:E.
  - destruct (stdout_error (diagnostic p e)) as [msg|] eqn:Hp; cbn; eauto.
  - cbn. split; [now apply (estimation_positive W p) | reflexivity].
Qed.

(* ================================================================== *)
(** ** What the tag loops leave in the record *)
(* ================================================================== *)

Section TagFields.

Variable tags : list (string * id3frame).
Variable audio : list (string * mp4value).

(** A key outside the table keeps its value. *)
Lemma mp3_fields_other mapping md key :
  ~ In key (map fst mapping) ->
  dict_get key (fold_left (mp3_field tags) mapping md) = dict_get key md.
Proof.
  revert md. induction mapping as [|[k ids] mapping IH]; intros md Hnot;
    simpl in *; [reflexivity|].
  rewrite IH by tauto. unfold mp3_field; simpl.
  destruct (first_present ids tags); [|reflexivity].
  apply dict_get_set_other. intros ->. tauto.
Qed.

Lemma mp4_fields_other mapping md md' key :
  fold_left (mp4_field audio) mapping (Some md) = Some md' ->
  ~ In key (map fst mapping) ->
  dict_get key md' = dict_get key md.
Proof.
  revert md. induction mapping as [|[k ids] mapping IH]; intros md Hfold Hnot;
    simpl in *; [congruence|].
  destruct (first_present ids audio) as [v|]; [|apply IH; tauto].
  destruct (mp4_text v) as [t|].
  - rewrite (IH _ Hfold) by tauto.
    apply dict_get_set_other. intros ->. tauto.
  - now rewrite mp4_field_none in Hfold.
Qed.

(** A key of the table holds the first identifier present, when the
    keys of the table are distinct. *)
Lemma mp3_fields_key mapping md key ids :
  NoDup (map fst mapping) ->
  In (key, ids) mapping ->
  dict_get key (fold_left (mp3_field tags) mapping md)
  = match first_present ids tags with
    | Some frame => Some (VStr (frame_str frame))
    | None => dict_get key md
    end.
Proof.
  revert md. induction mapping as [|[k ids'] mapping IH]; intros md Hnd Hin;
    simpl in *; [tauto|].
  inversion Hnd as [|? ? Hk Hnd']; subst.
  destruct Hin as [[= -> ->]|Hin].
  - rewrite mp3_fields_other by assumption. unfold mp3_field; simpl.
    destruct (first_present ids tags); [apply dict_get_set_same | reflexivity].
  - rewrite IH by assumption.
    destruct (first_present ids tags); [reflexivity|].
    unfold mp3_field; simpl.
    destruct (first_present ids' tags); [|reflexivity].
    apply dict_get_set_other. intros ->.
    apply Hk. now apply (in_map fst) in Hin.
Qed.


End TagFields.

Lemma mp3_keys_distinct : NoDup (map fst Backend.mp3_tag_mapping).
Proof.
  repeat constructor; simpl; intros H;
    repeat (destruct H as [H|H]; [discriminate H|]); exact H.
Qed.


(** Neither container block writes [bpm_calculated]. *)
Lemma mp3_parsed_no_flag W p md :
  mp3_parsed W p = inr md -> dict_get "bpm_calculated" md = None.
Proof.
  unfold mp3_parsed.
  destruct (MP3 W p) as [e|info]; [discriminate|].
  destruct (ID3 W p) as [e|tags]; [discriminate|].
  intros H.
  assert (fold_left (mp3_field tags) Backend.mp3_tag_mapping
            (structural p "mp3" info) = md) as <- by congruence.
  rewrite mp3_fields_other; [reflexivity|].
  simpl. intros F. repeat (destruct F as [F|F]; [discriminate F|]). exact F.
Qed.

Lemma mp4_parsed_no_flag W p md :
  mp4_parsed W p = inr md -> dict_get "bpm_calculated" md = None.
Proof.
  unfold mp4_parsed.
  destruct (MP4 W p) as [e|[info audio]]; [discriminate|].
  destruct (fold_left _ _ _) as [md'|] eqn:E; [|discriminate].
  intros H. assert (md' = md) as <- by congruence.
  rewrite (mp4_fields_other _ _ _ _ "bpm_calculated" E); [reflexivity|].
  simpl. intros F. repeat (destruct F as [F|F]; [discriminate F|]). exact F.
Qed.

(* ================================================================== *)
(** ** File Extractor: the BPM step *)
(* ================================================================== *)

Lemma with_bpm_flag bpm flag md :
  dict_get "bpm_calculated" md = None ->
  dict_get "bpm_calculated" (with_bpm bpm flag md) = Some (VBool true)
  <-> dict_has "bpm" md = false /\ flag = true
      /\ exists n, bpm = Some n /\ n <> 0.
Proof.
  intros Hno. unfold with_bpm.
  destruct (dict_has "bpm" md), flag; simpl;
    try (rewrite Hno; split; [discriminate | intros (? & ? & _); congruence]).
  destruct bpm as [n|]; simpl.
  - destruct (Z.eqb_spec n 0) as [->|Hn]; simpl.
    + rewrite Hno. split; [discriminate|].
      intros (_ & _ & m & [= <-] & Hm). congruence.
    + rewrite dict_get_set_same. split; [|reflexivity].
      intros _. repeat split. now exists n.
  - rewrite Hno. split; [discriminate|].
    intros (_ & _ & m & Hm & _). discriminate.
Qed.

Lemma with_bpm_value bpm flag md :
  dict_get "bpm_calculated" md = None ->
  dict_get "bpm_calculated" (with_bpm bpm flag md) = Some (VBool true) ->
  exists n, bpm = Some n
            /\ dict_get "bpm" (with_bpm bpm flag md) = Some (VStr (str_int n)).
Proof.
  intros Hno Hset. pose proof Hset as Hiff.
  apply with_bpm_flag in Hiff; [|exact Hno].
  destruct Hiff as (Hhas & -> & n & -> & Hn).
  exists n. split; [reflexivity|].
  unfold with_bpm. rewrite Hhas. simpl.
  destruct (Z.eqb_spec n 0); [contradiction|]. simpl.
  rewrite dict_get_set_other by discriminate. apply dict_get_set_same.
Qed.

(** C1: in both parsers and on any stdout, [bpm_calculated] is set if
    and only if the container block produced a record without a [bpm]
    field, the compute-missing-tempo flag was set and the estimator
    returned a value; the [bpm] field is then that value's string
    form. *)
Theorem bpm_calculated_iff_estimator_value {console : Stdout} (W : World)
    (p : string) (flag : bool) (s : pystate) :
  bpm_calculated_iff W
    (Backend.mp3_container W) (Backend.extract_mp3_metadata W) p flag s
  /\ bpm_calculated_iff W
       (Backend.mp4_container W) (Backend.extract_mp4_metadata W) p flag s.
Proof.
  assert (forall is_mp3,
             bpm_calculated_iff W (container_of W is_mp3)
               (extractor_of W is_mp3) p flag s) as H.
  { intros is_mp3. unfold bpm_calculated_iff.
    rewrite extractor_outcome, container_of_run, calculate_bpm_outcome.
    unfold extraction, parsed_of. cbn [fst snd].
    assert (forall md,
               (if is_mp3 then mp3_parsed W p else mp4_parsed W p) = inr md ->
               dict_get "bpm_calculated" md = None) as Hno.
    { intros md. destruct is_mp3;
        [apply mp3_parsed_no_flag | apply mp4_parsed_no_flag]. }
    destruct (if is_mp3 then mp3_parsed W p else mp4_parsed W p) as [e|md].
    - eexists _, _. split; [reflexivity|]. cbn. split.
      + split; [discriminate|]. intros ((md & Hmd & _) & _). discriminate.
      + discriminate.
    - specialize (Hno md eq_refl). cbn [parsed_outcome fst].
      destruct (dict_has "bpm" md) eqn:Hhas; cbn [negb andb].
      { eexists _, _. split; [reflexivity|]. rewrite Hno. split.
        - split; [discriminate|].
          intros ((md' & [= <-] & Hh) & _). congruence.
        - discriminate. }
      destruct flag.
      2:{ eexists _, _. split; [reflexivity|]. rewrite Hno. split.
          - split; [discriminate|]. intros (_ & Hf & _). discriminate.
          - discriminate. }
      destruct (estimation W p) as [e|n] eqn:E.
      + destruct (stdout_error (diagnostic p e)) as [msg|];
          (eexists _, _; split; [reflexivity|]); cbn [fst];
          try rewrite Hno; cbn; split;
          try discriminate;
          (split; [discriminate|]); intros (_ & _ & n & Hn); discriminate.
      + pose proof (estimation_positive W p n E) as Hpos.
        eexists _, _. split; [reflexivity|]. cbn [fst].
        assert (dict_get "bpm_calculated" (with_bpm (Some n) true md)
                = Some (VBool true)) as Hset.
        { apply with_bpm_flag; [exact Hno|].
          repeat split; [exact Hhas|]. exists n. split; [reflexivity | lia]. }
        split.
        * split; [|intros _; exact Hset].
          intros _. repeat split; eauto.
        * intros _. exists n. split; [reflexivity|].
          destruct (with_bpm_value (Some n) true md Hno Hset) as (m & [= <-] & Hb).
          exact Hb. }
  split; [apply (H true) | apply (H false)].
Qed.

Lemma mp4_fields_empty audio mapping key ids :
  In (key, ids) mapping ->
  first_present ids audio = Some (MList []) ->
  forall md, fold_left (mp4_field audio) mapping md = None.
Proof.
  intros Hin Hempty.
  induction mapping as [|entry mapping IH]; intros md; simpl in *; [tauto|].
  destruct Hin as [->|Hin]; [|now apply IH].
  replace (mp4_field audio md (key, ids)) with (@None pydict);
    [apply mp4_field_none|].
  unfold mp4_field; simpl. destruct md; [|reflexivity]. now rewrite Hempty.
Qed.

(* ================================================================== *)
(** ** Container Parser *)
(* ================================================================== *)


Lemma empty_list_tag_fails audio md :
  empty_list_tag audio = true ->
  fold_left (mp4_field audio) Backend.mp4_tag_mapping md = None.
Proof.
  unfold empty_list_tag. intros H. apply existsb_exists in H.
  destruct H as ([key ids] & Hin & Hempty). cbn [snd] in Hempty.
  apply (mp4_fields_empty audio _ key ids Hin).
  destruct (first_present ids audio) as [[[|a items]|a]|];
    try discriminate; reflexivity.
Qed.

Lemma library_failure_parsed W is_mp3 p e :
  library_failure W is_mp3 p = Some e ->
  parsed_of W (p, is_mp3) = inl e.
Proof.
  unfold library_failure, parsed_of, mp3_parsed, mp4_parsed. cbn [fst snd].
  destruct is_mp3.
  - destruct (MP3 W p) as [e0|info]; [congruence|].
    destruct (ID3 W p) as [e0|tags]; [congruence | discriminate].
  - destruct (MP4 W p) as [e0|[info audio]]; [congruence|].
    destruct (empty_list_tag audio) eqn:Hempty; [|discriminate].
    rewrite (empty_list_tag_fails audio _ Hempty). congruence.
Qed.

(** C3: when opening the file, parsing its header or reading its tags
    fails in the libraries, the extractor of either kind, with either
    flag and on any stdout, returns the record holding [file_path] and
    [error] (the failure's message) and nothing else; it does not raise
    and leaves the state as it was, so the estimator was not called and
    nothing was printed. *)
Theorem parse_failure_record {console : Stdout} (W : World) (is_mp3 : bool)
    (p : string) (flag : bool) (s : pystate) (e : string)
    (Hfail : library_failure W is_mp3 p = Some e) :
  extractor_of W is_mp3 p flag s
  = (Ok [("file_path", VStr p); ("error", VStr e)], s)
  /\ estimated (snd (extractor_of W is_mp3 p flag s)) = estimated s.
Proof.
  rewrite extractor_outcome. unfold extraction.
  rewrite (library_failure_parsed W is_mp3 p e Hfail). split; reflexivity.
Qed.

Lemma parse_failure_record_witness :
  (* the MP3 cannot be opened *)
  (extractor_of Samples.world true "music/bad.mp3" true initial_state
   = (Ok [("file_path", VStr "music/bad.mp3");
          ("error", VStr "can't sync to MPEG frame")], initial_state)
   /\ estimated (snd (extractor_of Samples.world true "music/bad.mp3" true
                        initial_state)) = estimated initial_state)
  (* the MP3 opens but its tags cannot be read *)
  /\ (extractor_of (console := strict_stdout) Untagged.world true
        "music/raw.mp3" true initial_state
      = (Ok [("file_path", VStr "music/raw.mp3");
             ("error",
              VStr "music/raw.mp3 doesn't start with an ID3 tag")],
         initial_state)
      /\ estimated (snd (extractor_of (console := strict_stdout)
                           Untagged.world true "music/raw.mp3" true
                           initial_state)) = estimated initial_state)
  (* the MP4 cannot be opened *)
  /\ (extractor_of Samples.world false "music/notes.m4a" false initial_state
      = (Ok [("file_path", VStr "music/notes.m4a");
             ("error", VStr "not a MP4 file")], initial_state)
      /\ estimated (snd (extractor_of Samples.world false "music/notes.m4a"
                           false initial_state)) = estimated initial_state)
  (* the MP4 opens but a tag value has no first element *)
  /\ (extractor_of Duo.world false "music/empty.m4a" true initial_state
      = (Ok [("file_path", VStr "music/empty.m4a");
             ("error", VStr "list index out of range")], initial_state)
      /\ estimated (snd (extractor_of Duo.world false "music/empty.m4a" true
                           initial_state)) = estimated initial_state).
Proof.
  repeat apply conj.
  - apply (parse_failure_record Samples.world true "music/bad.mp3" true
             initial_state). reflexivity.
  - apply (parse_failure_record Samples.world true "music/bad.mp3" true
             initial_state "can't sync to MPEG frame"). reflexivity.
  - apply (parse_failure_record (console := strict_stdout) Untagged.world
             true "music/raw.mp3" true initial_state). reflexivity.
  - apply (parse_failure_record (console := strict_stdout) Untagged.world
             true "music/raw.mp3" true initial_state
             "music/raw.mp3 doesn't start with an ID3 tag"). reflexivity.
  - apply (parse_failure_record Samples.world false "music/notes.m4a" false
             initial_state). reflexivity.
  - apply (parse_failure_record Samples.world false "music/notes.m4a" false
             initial_state "not a MP4 file"). reflexivity.
  - apply (parse_failure_record Duo.world false "music/empty.m4a" true
             initial_state). reflexivity.
  - apply (parse_failure_record Duo.world false "music/empty.m4a" true
             initial_state "list index out of range"). reflexivity.
Defined.



Lemma with_bpm_other bpm flag md key :
  key <> "bpm" -> key <> "bpm_calculated" ->
  dict_get key (with_bpm bpm flag md) = dict_get key md.
Proof.
  intros H1 H2. unfold with_bpm.
  destruct (negb (dict_has "bpm" md) && flag); [|reflexivity].
  destruct (truthy_bpm bpm); [|reflexivity].
  now rewrite !dict_get_set_other by assumption.
Qed.






(* ================================================================== *)
(** ** The unguarded first element of the MP4 parser *)
(* ================================================================== *)

Lemma toplevel_mp4_container W p :
  Toplevel.mp4_container W p = Backend.mp4_container W p.
Proof. reflexivity. Qed.

Lemma toplevel_mp3_container W p :
  Toplevel.mp3_container W p = Backend.mp3_container W p.
Proof. reflexivity. Qed.

(** C9: when the MP4 header parses and the first identifier present for
    some field maps to an empty list, taking its first element raises
    inside the [try] block, and the extractor, in either copy, returns
    the error record: the structural fields are lost. *)
Theorem mp4_empty_list_loses_record (W : World) (p : string)
    (info : stream_info) (audio : list (string * mp4value))
    (key : string) (ids : list string) (flag : bool) (s : pystate)
    (Hparse : MP4 W p = inr (info, audio))
    (Hin : In (key, ids) Backend.mp4_tag_mapping)
    (Hempty : first_present ids audio = Some (MList [])) :
  Backend.extract_mp4_metadata W p flag s
  = (Ok [("file_path", VStr p); ("error", VStr "list index out of range")], s)
  /\ Toplevel.extract_mp4_metadata W p flag s
     = (Ok [("file_path", VStr p); ("error", VStr "list index out of range")], s).
Proof.
  assert (mp4_parsed W p = inl "list index out of range") as Hp.
  { unfold mp4_parsed. rewrite Hparse.
    now rewrite (mp4_fields_empty audio _ key ids Hin Hempty). }
  split.
  - unfold Backend.extract_mp4_metadata, try_except, bind.
    rewrite mp4_container_run, Hp. reflexivity.
  - unfold Toplevel.extract_mp4_metadata, try_except, bind.
    rewrite toplevel_mp4_container, mp4_container_run, Hp. reflexivity.
Qed.

Lemma mp4_empty_list_loses_record_witness :
  Backend.extract_mp4_metadata Duo.world "music/empty.m4a" true initial_state
  = (Ok [("file_path", VStr "music/empty.m4a");
         ("error", VStr "list index out of range")], initial_state)
  /\ Toplevel.extract_mp4_metadata Duo.world "music/empty.m4a" true
       initial_state
     = (Ok [("file_path", VStr "music/empty.m4a");
            ("error", VStr "list index out of range")], initial_state).
Proof.
  apply (mp4_empty_list_loses_record Duo.world "music/empty.m4a"
           Samples.info44
           [("©nam", MList [AStr "Outro"]); ("tmpo", MList [])]
           "bpm" ["tmpo"] true initial_state).
  - reflexivity.
  - simpl. auto 10.
  - reflexivity.
Defined.

(* ================================================================== *)
(** ** Directory Scanner *)
(* ================================================================== *)

Lemma dirtree_induction (P : dirtree -> Prop) :
  (forall name files subdirs,
      Forall P subdirs -> P (Dir name files subdirs)) ->
  forall t, P t.
Proof.
  intros H. fix IH 1. intros [name files subdirs]. apply H.
  induction subdirs as [|sub subdirs IHs]; constructor; [apply IH | exact IHs].
Qed.

Lemma fold_append_map {A B : Type} (f : A -> B) xs acc :
  fold_left (fun acc x => (acc ++ [f x])%list) xs acc = (acc ++ map f xs)%list.
Proof.
  revert acc. induction xs as [|x xs IH]; intros acc; simpl.
  - now rewrite app_nil_r.
  - rewrite IH, <- app_assoc. reflexivity.
Qed.

Section ScannerFacts.

Context {os_path : OsPath}.

Lemma audio_files_of_app l1 l2 :
  Backend.audio_files_of (l1 ++ l2)
  = (Backend.audio_files_of l1 ++ Backend.audio_files_of l2)%list.
Proof. apply flat_map_app. Qed.

Lemma audio_files_of_entry root files :
  length (Backend.audio_files_of [(root, files)])
  = length (filter eligible files).
Proof.
  unfold Backend.audio_files_of. cbn [flat_map fst snd]. rewrite app_nil_r.
  induction files as [|file files IH]; cbn [flat_map filter]; [reflexivity|].
  change (endswith_any (lower file) [".mp3"; ".mp4"; ".m4a"])
    with (eligible file).
  destruct (eligible file); cbn [app length]; now rewrite IH.
Qed.

(** The scanner collects one item per eligible file of the tree. *)
Lemma audio_files_count (W : World) t top :
  length (Backend.audio_files_of (walk_tree top t))
  = length (filter eligible (tree_files t)).
Proof.
  revert top. induction t as [name files subdirs IH] using dirtree_induction.
  intros top. simpl walk_tree. simpl tree_files.
  change ((top, files) :: ?l) with ([(top, files)] ++ l)%list.
  rewrite audio_files_of_app, filter_app, !length_app, audio_files_of_entry.
  f_equal.
  induction IH as [|sub subdirs Hsub _ IHs]; simpl; [reflexivity|].
  rewrite audio_files_of_app, filter_app, !length_app, IHs.
  f_equal. destruct sub as [n f sd]. apply Hsub.
Qed.

Variable W : World.

Lemma record_of_path flag item :
  dict_get "file_path" (record_of W flag item) = Some (VStr (fst item)).
Proof.
  unfold record_of, finish. destruct item as [p is_mp3]; simpl.
  destruct (if is_mp3 then mp3_parsed W p else mp4_parsed W p) as [e|md] eqn:E;
    [reflexivity|].
  rewrite with_bpm_other by discriminate.
  pose proof (container_of_run W is_mp3 p initial_state) as Hc.
  rewrite E in Hc. simpl in Hc.
  destruct is_mp3.
  - unfold mp3_parsed in E.
    destruct (MP3 W p) as [?|info]; [discriminate|].
    destruct (ID3 W p) as [?|tags]; [discriminate|].
    assert (fold_left (mp3_field tags) Backend.mp3_tag_mapping
              (structural p "mp3" info) = md) as <- by congruence.
    rewrite mp3_fields_other; [reflexivity|].
    simpl. intros F. repeat (destruct F as [F|F]; [discriminate F|]). exact F.
  - unfold mp4_parsed in E.
    destruct (MP4 W p) as [?|[info audio]]; [discriminate|].
    destruct (fold_left _ _ _) as [md'|] eqn:Ef; [|discriminate].
    assert (md' = md) as -> by congruence.
    rewrite (mp4_fields_other _ _ _ _ "file_path" Ef); [reflexivity|].
    simpl. intros F. repeat (destruct F as [F|F]; [discriminate F|]). exact F.
Qed.

Lemma process_file_returns flag item results :
  returns (Backend.process_file W flag item results)
          (Next (results ++ [record_of W flag item])%list).
Proof.
  unfold Backend.process_file, record_of. destruct item as [p is_mp3]; simpl.
  eapply returns_bind; [|apply returns_ret].
  destruct is_mp3; [apply extract_mp3_returns | apply extract_mp4_returns].
Qed.

(** What [scan_directory] hands back on a directory. *)
Lemma scan_directory_returns d flag :
  isdir W (normpath d) = true ->
  returns (Backend.scan_directory W d flag)
          (map (record_of W flag)
             (Backend.audio_files_of (os_walk W (normpath d)))).
Proof.
  intros Hdir. unfold Backend.scan_directory. rewrite Hdir. cbn [negb].
  eapply returns_bind; [apply returns_ret|].
  eapply returns_bind; [apply returns_print|].
  eapply returns_bind; [apply returns_print|].
  generalize (Backend.audio_files_of (os_walk W (normpath d))).
  intros items. destruct (Nat.eqb_spec (length items) 0) as [E|E].
  - apply length_zero_iff_nil in E. subst items.
    eapply returns_bind; [apply returns_print | apply returns_ret].
  - eapply returns_bind; [apply returns_print|].
    replace (map (record_of W flag) items)
      with (fold_left (fun acc x => (acc ++ [record_of W flag x])%list)
                      items []) by (now rewrite fold_append_map).
    apply returns_for_in. intros x acc. apply process_file_returns.
Qed.

(** Off a directory it prints the condition and exits with status 1. *)
Lemma scan_directory_exits d flag s :
  isdir W (normpath d) = false ->
  Backend.scan_directory W d flag s
  = (Raise (SystemExit 1),
     after_print ("Error: " ++ normpath d ++ " is not a valid directory.") s).
Proof.
  intros Hdir. unfold Backend.scan_directory. rewrite Hdir. reflexivity.
Qed.

Lemma scan_directory_result d flag s :
  fst (Backend.scan_directory W d flag s)
  = if isdir W (normpath d)
    then Ok (map (record_of W flag)
               (Backend.audio_files_of (os_walk W (normpath d))))
    else Raise (SystemExit 1).
Proof.
  destruct (isdir W (normpath d)) eqn:Hdir.
  - destruct (scan_directory_returns d flag Hdir s) as [s' ->]. reflexivity.
  - now rewrite scan_directory_exits.
Qed.

End ScannerFacts.

(* ================================================================== *)
(** ** Output boundary *)
(* ================================================================== *)

Lemma backend_save_contract {os_path : OsPath} (W : World) :
  save_contract W (Backend.save_metadata W).
Proof.
  intros records output s. cbv zeta.
  unfold Backend.save_metadata, try_except, bind, write_json.
  destruct (write_error W (normpath output)) as [e|].
  - cbn [print stdout_error accepting_stdout fst snd opened written stdout
           estimated].
    destruct (write_error W (basename (normpath output))) as [e2|];
      cbn [print stdout_error accepting_stdout fst snd opened written stdout
             estimated];
      rewrite <- app_assoc; repeat split; reflexivity.
  - cbn [print stdout_error accepting_stdout fst snd opened written stdout
           estimated].
    destruct (0 <? _)%nat;
      cbn [print stdout_error accepting_stdout ret fst snd opened written
             stdout estimated];
      repeat split; reflexivity.
Qed.



(* ================================================================== *)
(** ** The run *)
(* ================================================================== *)

Section RunFacts.

Context {os_path : OsPath} (W : World).

Lemma save_metadata_ok records output :
  write_error W (normpath output) = None ->
  returns (Backend.save_metadata W records output) tt.
Proof.
  intros Hok s. pose proof (backend_save_contract W records output s) as H.
  cbv zeta in H. rewrite Hok in H. destruct H as (H & _).
  destruct (Backend.save_metadata W records output s) as [r s'].
  simpl in H. subst r. now exists s'.
Qed.

(** Whatever [save_metadata] adds to the documents written is the
    report of the records it was given. *)
Lemma save_metadata_writes_report records output s :
  exists extra,
    written (snd (Backend.save_metadata W records output s))
    = (written s ++ extra)%list
    /\ Forall (fun doc => snd doc = make_report W records) extra.
Proof.
  pose proof (backend_save_contract W records output s) as H.
  cbv zeta in H.
  destruct (write_error W (normpath output)) as [e|].
  - destruct H as (_ & H).
    destruct (write_error W (basename (normpath output))) as [e2|].
    + destruct H as (_ & ->). exists []. now rewrite app_nil_r.
    + destruct H as (_ & ->). eexists. split; [reflexivity|].
      repeat constructor.
  - destruct H as (_ & _ & ->). eexists. split; [reflexivity|].
    repeat constructor.
Qed.

(** The flag [main] passes on to the scanner. *)
Lemma main_flag_returns (no_bpm_calc : bool) :
  exists flag,
    returns
      (if negb no_bpm_calc then
         match import_librosa W with
         | None =>
             print "BPM calculation enabled - will calculate BPM for files that don't have it in metadata" ;;
             ret no_bpm_calc
         | Some _ =>
             print "Warning: librosa library not found. BPM calculation will be disabled." ;;
             print "To enable BPM calculation, install librosa with: pip install librosa numpy" ;;
             ret true
         end
       else ret no_bpm_calc)
      flag.
Proof.
  destruct no_bpm_calc; cbn [negb]; [eexists; apply returns_ret|].
  destruct (import_librosa W); eexists;
    repeat (eapply returns_bind; [apply returns_print|]); apply returns_ret.
Qed.

Lemma main_succeeds d output no_bpm_calc :
  isdir W (normpath d) = true ->
  write_error W (normpath output) = None ->
  returns (Backend.main W d output no_bpm_calc) tt.
Proof.
  intros Hdir Hok. unfold Backend.main.
  eapply returns_bind; [apply returns_print|].
  destruct (main_flag_returns no_bpm_calc) as [flag Hflag].
  eapply returns_bind; [exact Hflag|].
  eapply returns_bind; [apply scan_directory_returns; exact Hdir|].
  apply save_metadata_ok; exact Hok.
Qed.

End RunFacts.

(** The empty path is no directory, yet its normal form is the current
    directory, and that is what gets scanned. *)
Lemma empty_root_is_scanned_counterexample :
  ~ fatal_off_directories (os_path := posix) Here.world "" true initial_state.
Proof.
  unfold fatal_off_directories. intros H.
  specialize (H eq_refl). vm_compute in H. discriminate H.
Qed.

Example roots_that_normalise_to_a_directory :
  fs Here.world "" = None /\ fs Here.world "nx/.." = None
  /\ (normpath (OsPath := posix) "" = "."
      /\ normpath (OsPath := posix) "nx/.." = ".")
  /\ (exists record,
        fst (Backend.scan_directory (os_path := posix) Here.world "" false
               initial_state) = Ok [record]
        /\ dict_get "file_path" record = Some (VStr "./a.mp3")
        /\ dict_get "title" record = Some (VStr "Intro"))
  /\ fst (Backend.scan_directory (os_path := posix) Here.world "nx/.." false
            initial_state)
     = fst (Backend.scan_directory (os_path := posix) Here.world "" false
              initial_state).
Proof.
  repeat split; try reflexivity. eexists. repeat split; reflexivity.
Qed.

(** C5, amended: when the normal form of the root, which is what the
    scanner tests, is not a directory, [scan_directory] prints the
    condition and exits with status 1; if stdout refuses that line the
    run ends in that exception instead.  Either way no sequence is
    returned, [main] ends there, nothing is opened for writing and no
    report is written. *)
Theorem invalid_root_is_fatal {os_path : OsPath} {console : Stdout}
    (W : World) (d : string) (flag : bool) (s : pystate)
    (Hnot : fs W (normpath d) = None) :
  Backend.scan_directory W d flag s
  = match stdout_error
            ("Error: " ++ normpath d ++ " is not a valid directory.") with
    | None =>
        (Raise (SystemExit 1),
         after_print ("Error: " ++ normpath d ++ " is not a valid directory.")
           s)
    | Some msg => (Raise (PyException msg), s)
    end
  /\ 1 <> 0
  /\ forall output no_bpm_calc,
       exists x s',
         Backend.main W d output no_bpm_calc s = (Raise x, s')
         /\ written s' = written s
         /\ opened s' = opened s
         /\ ((forall line, stdout_error line = None) ->
             x = SystemExit 1
             /\ last (stdout s') ""
                = "Error: " ++ normpath d ++ " is not a valid directory.").
Proof.
  assert (isdir W (normpath d) = false) as Hisdir
    by (unfold isdir; now rewrite Hnot).
  assert (forall flag0 s0,
            Backend.scan_directory W d flag0 s0
            = match stdout_error
                      ("Error: " ++ normpath d ++ " is not a valid directory.")
              with
              | None =>
                  (Raise (SystemExit 1),
                   after_print
                     ("Error: " ++ normpath d ++ " is not a valid directory.")
                     s0)
              | Some msg => (Raise (PyException msg), s0)
              end) as Hscan.
  { intros flag0 s0.
    unfold Backend.scan_directory, bind, print, after_print.
    rewrite Hisdir. cbn [negb print stdout_error accepting_stdout snd].
    now destruct (stdout_error _). }
  split; [apply Hscan|]. split; [discriminate|].
  intros output no_bpm_calc.
  assert (forall flag0 s0,
            written s0 = written s -> opened s0 = opened s ->
            exists x s',
              (metadata <- Backend.scan_directory W d flag0 ;;
               Backend.save_metadata W metadata output) s0 = (Raise x, s')
              /\ written s' = written s /\ opened s' = opened s
              /\ ((forall line, stdout_error line = None) ->
                  x = SystemExit 1
                  /\ last (stdout s') ""
                     = "Error: " ++ normpath d ++ " is not a valid directory."))
    as Hrest.
  { intros flag0 s0 Hw Ho. unfold bind at 1.
    specialize (Hscan flag0 s0). revert Hscan.
    generalize (Backend.scan_directory W d flag0 s0).
    intros r Hr. subst r.
    destruct (stdout_error _) as [msg|] eqn:E.
    - exists (PyException msg), s0. split; [reflexivity|].
      split; [assumption|]. split; [assumption|].
      intros Hall. rewrite Hall in E. discriminate E.
    - eexists _, _. split; [reflexivity|].
      cbn [after_print print stdout_error accepting_stdout snd written opened
             stdout].
      split; [assumption|]. split; [assumption|].
      intros _. split; [reflexivity | apply last_last]. }
  assert (forall line (k : M unit) s0,
            written s0 = written s -> opened s0 = opened s ->
            (forall s1, written s1 = written s -> opened s1 = opened s ->
               exists x s',
                 k s1 = (Raise x, s')
                 /\ written s' = written s /\ opened s' = opened s
                 /\ ((forall line, stdout_error line = None) ->
                     x = SystemExit 1
                     /\ last (stdout s') ""
                        = "Error: " ++ normpath d
                          ++ " is not a valid directory.")) ->
            exists x s',
              (print line ;; k) s0 = (Raise x, s')
              /\ written s' = written s /\ opened s' = opened s
              /\ ((forall line, stdout_error line = None) ->
                  x = SystemExit 1
                  /\ last (stdout s') ""
                     = "Error: " ++ normpath d ++ " is not a valid directory."))
    as Hprint.
  { intros line k s0 Hw Ho Hk. unfold bind, print.
    destruct (stdout_error line) as [msg|] eqn:E.
    - exists (PyException msg), s0. split; [reflexivity|].
      split; [assumption|]. split; [assumption|].
      intros Hall. rewrite Hall in E. discriminate E.
    - apply Hk; assumption. }
  unfold Backend.main.
  apply Hprint; [reflexivity | reflexivity |]. intros s1 Hw1 Ho1.
  destruct no_bpm_calc; cbn [negb].
  - unfold bind at 1, ret. now apply Hrest.
  - destruct (import_librosa W) as [e|]; unfold bind at 1 2, print, ret;
      repeat
        (match goal with
         | |- context [stdout_error ?l] =>
             lazymatch l with
             | context [normpath] => fail
             | _ => destruct (stdout_error l) as [msg|] eqn:?
             end
         end; cbv beta iota);
      try (eexists _, _; split; [reflexivity|];
           split; [assumption|]; split; [assumption|];
           intros Hall;
           match goal with
           | E : stdout_error _ = Some _ |- _ =>
               rewrite Hall in E; discriminate E
           end);
      apply Hrest; assumption.
Qed.
Lemma invalid_root_is_fatal_witness :
  Backend.scan_directory (console := strict_stdout) Samples.world "nowhere"
    true initial_state
  = (Raise (SystemExit 1),
     after_print "Error: nowhere is not a valid directory." initial_state)
  /\ 1 <> 0
  /\ forall output no_bpm_calc,
       exists x s',
         Backend.main (console := strict_stdout) Samples.world "nowhere"
           output no_bpm_calc initial_state = (Raise x, s')
         /\ written s' = written initial_state
         /\ opened s' = opened initial_state
         /\ ((forall line, stdout_error (Stdout := strict_stdout) line = None)
             -> x = SystemExit 1
                /\ last (stdout s') ""
                   = "Error: nowhere is not a valid directory.").
Proof.
  exact (invalid_root_is_fatal (console := strict_stdout) Samples.world
           "nowhere" true initial_state eq_refl).
Defined.

Example invalid_root_run :
  Backend.main (console := strict_stdout) Samples.world "nowhere" "out.json"
    false initial_state
  = (Raise (SystemExit 1),
     {| stdout := ["Detected operating system: Linux";
                   "BPM calculation enabled - will calculate BPM for files that don't have it in metadata";
                   "Error: nowhere is not a valid directory."];
        estimated := []; opened := []; written := [] |}).
Proof. reflexivity. Qed.

(* ================================================================== *)
(** ** Two runs over the same tree *)
(* ================================================================== *)

Lemma with_bpm_off bpm md : with_bpm bpm false md = md.
Proof. unfold with_bpm. now rewrite andb_false_r. Qed.

Lemma record_of_same_tree W1 W2 item :
  same_tree W1 W2 -> record_of W1 false item = record_of W2 false item.
Proof.
  intros (_ & H3 & Hid & H4). unfold record_of, finish, mp3_parsed, mp4_parsed.
  rewrite H3, Hid, H4.
  destruct (snd item).
  - destruct (MP3 W2 (fst item)); [reflexivity|].
    destruct (ID3 W2 (fst item)); [reflexivity|].
    now rewrite !with_bpm_off.
  - destruct (MP4 W2 (fst item)) as [|[info audio]]; [reflexivity|].
    destruct (fold_left _ _ _); [|reflexivity].
    now rewrite !with_bpm_off.
Qed.

(** C8: with tempo estimation disabled, two runs over the same tree
    return the same record sequence, whatever the estimator, the clock,
    the platform and the interpreter state of each run; the two reports
    agree on [metadata] and [file_count]. *)
Theorem rescan_without_tempo_is_identical {os_path : OsPath} (W1 W2 : World)
    (d : string) (s1 s2 : pystate)
    (Hsame : same_tree W1 W2) :
  fst (Backend.scan_directory W1 d false s1)
  = fst (Backend.scan_directory W2 d false s2)
  /\ forall results1 results2,
       fst (Backend.scan_directory W1 d false s1) = Ok results1 ->
       fst (Backend.scan_directory W2 d false s2) = Ok results2 ->
       metadata (make_report W1 results1) = metadata (make_report W2 results2)
       /\ file_count (make_report W1 results1)
          = file_count (make_report W2 results2).
Proof.
  assert (fst (Backend.scan_directory W1 d false s1)
          = fst (Backend.scan_directory W2 d false s2)) as Heq.
  { rewrite !scan_directory_result. unfold isdir, os_walk.
    pose proof Hsame as (Hfs & _). rewrite Hfs.
    destruct (fs W2 (normpath d)); [|reflexivity].
    f_equal. apply map_ext. intros item.
    apply record_of_same_tree; exact Hsame. }
  split; [exact Heq|].
  intros results1 results2 H1 H2. rewrite Heq, H2 in H1.
  injection H1 as ->. split; reflexivity.
Qed.

Lemma rescan_without_tempo_is_identical_witness :
  fst (Backend.scan_directory Samples.world "music" false initial_state)
  = fst (Backend.scan_directory Rerun.world "music" false
           (after_print "second run" initial_state))
  /\ forall results1 results2,
       fst (Backend.scan_directory Samples.world "music" false initial_state)
       = Ok results1 ->
       fst (Backend.scan_directory Rerun.world "music" false
              (after_print "second run" initial_state)) = Ok results2 ->
       metadata (make_report Samples.world results1)
       = metadata (make_report Rerun.world results2)
       /\ file_count (make_report Samples.world results1)
          = file_count (make_report Rerun.world results2).
Proof.
  apply (rescan_without_tempo_is_identical Samples.world Rerun.world "music"
           initial_state (after_print "second run" initial_state)).
  repeat split; intros p; reflexivity.
Defined.

(* ================================================================== *)
(** ** The two copies *)
(* ================================================================== *)

Section ToplevelFacts.

Context {os_path : OsPath} (W : World).

Lemma toplevel_calculate_bpm_returns p :
  returns (Toplevel.calculate_bpm W p) (rounded (librosa_tempo W p)).
Proof.
  intros s. unfold Toplevel.calculate_bpm, librosa_estimate. run.
  destruct (librosa_tempo W p) as [e|[|sr lag Hw]]; simpl; eexists; reflexivity.
Qed.

Lemma toplevel_fill_bpm_returns p flag md :
  returns (Toplevel.fill_bpm W p flag md)
          (with_bpm (rounded (librosa_tempo W p)) flag md).
Proof.
  unfold Toplevel.fill_bpm, with_bpm.
  destruct (negb (dict_has "bpm" md) && flag); [|apply returns_ret].
  eapply returns_bind; [apply returns_print|].
  eapply returns_bind; [apply toplevel_calculate_bpm_returns|].
  destruct (truthy_bpm _); apply returns_ret.
Qed.

Lemma toplevel_extract_mp3_returns p flag :
  returns (Toplevel.extract_mp3_metadata W p flag)
          (toplevel_record_of W flag (p, true)).
Proof.
  intros s. unfold Toplevel.extract_mp3_metadata, try_except, bind.
  rewrite toplevel_mp3_container, mp3_container_run.
  unfold toplevel_record_of; simpl.
  destruct (mp3_parsed W p) as [e|md]; simpl.
  - now exists s.
  - destruct (toplevel_fill_bpm_returns p flag md s) as [s' E].
    rewrite E. now exists s'.
Qed.

Lemma toplevel_extract_mp4_returns p flag :
  returns (Toplevel.extract_mp4_metadata W p flag)
          (toplevel_record_of W flag (p, false)).
Proof.
  intros s. unfold Toplevel.extract_mp4_metadata, try_except, bind.
  rewrite toplevel_mp4_container, mp4_container_run.
  unfold toplevel_record_of; simpl.
  destruct (mp4_parsed W p) as [e|md]; simpl.
  - now exists s.
  - destruct (toplevel_fill_bpm_returns p flag md s) as [s' E].
    rewrite E. now exists s'.
Qed.

Lemma advance_nil flag st : advance W flag st [] = st.
Proof.
  unfold advance. destruct st as [n results]. simpl.
  now rewrite app_nil_r.
Qed.

Lemma advance_app flag st a b :
  advance W flag (advance W flag st a) b = advance W flag st (a ++ b).
Proof.
  unfold advance. simpl. rewrite map_app, length_app, app_assoc.
  f_equal. lia.
Qed.

Lemma fold_advance {A : Type} flag (g : A -> list (string * bool)) xs st :
  fold_left (fun st x => advance W flag st (g x)) xs st
  = advance W flag st (flat_map g xs).
Proof.
  revert st. induction xs as [|x xs IH]; intros st; simpl.
  - now rewrite advance_nil.
  - now rewrite IH, advance_app.
Qed.

Lemma toplevel_process_file_returns flag total root file st :
  returns (Toplevel.process_file W flag total root file st)
          (Next (advance W flag st (file_items root file))).
Proof.
  unfold Toplevel.process_file, file_items.
  cbn [endswith_any existsb].
  destruct (endswith (lower file) ".mp3") eqn:E3; cbn [orb].
  - eapply returns_bind; [apply returns_print|].
    eapply returns_bind; [apply toplevel_extract_mp3_returns|].
    apply returns_ret.
  - destruct (endswith (lower file) ".mp4" || (endswith (lower file) ".m4a" || false)).
    + eapply returns_bind; [apply returns_print|].
      eapply returns_bind; [apply toplevel_extract_mp4_returns|].
      apply returns_ret.
    + rewrite advance_nil. apply returns_ret.
Qed.

Lemma audio_files_of_file_items walk :
  Backend.audio_files_of walk
  = flat_map (fun entry => flat_map (file_items (fst entry)) (snd entry)) walk.
Proof. reflexivity. Qed.

Lemma count_files_fold root files n :
  fold_left
    (fun total_files file =>
       if endswith_any (lower file) [".mp3"; ".mp4"; ".m4a"]
       then S total_files else total_files) files n
  = (length (flat_map (file_items root) files) + n)%nat.
Proof.
  revert n. induction files as [|file files IH]; intros n;
    cbn [fold_left flat_map]; [reflexivity|].
  rewrite IH, length_app. unfold file_items at 2.
  destruct (endswith_any _ _); simpl; lia.
Qed.

Lemma count_audio_files_length walk :
  Toplevel.count_audio_files walk = length (Backend.audio_files_of walk).
Proof.
  unfold Toplevel.count_audio_files. rewrite audio_files_of_file_items.
  rewrite <- (Nat.add_0_r (length _)). generalize 0%nat.
  induction walk as [|[root files] walk IH]; intros n;
    cbn [fold_left flat_map fst snd]; [reflexivity|].
  rewrite IH, (count_files_fold root), length_app. lia.
Qed.

Lemma toplevel_scan_directory_returns d flag :
  isdir W (normpath d) = true ->
  returns (Toplevel.scan_directory W d flag)
          (map (toplevel_record_of W flag)
             (Backend.audio_files_of (os_walk W (normpath d)))).
Proof.
  intros Hdir. unfold Toplevel.scan_directory. rewrite Hdir. cbn [negb].
  eapply returns_bind; [apply returns_ret|].
  eapply returns_bind; [apply returns_print|].
  rewrite count_audio_files_length.
  generalize (os_walk W (normpath d)). intros walk.
  destruct (Nat.eqb_spec (length (Backend.audio_files_of walk)) 0) as [E|E].
  - apply length_zero_iff_nil in E. rewrite E.
    eapply returns_bind; [apply returns_print | apply returns_ret].
  - eapply returns_bind.
    + apply (returns_for_in _
               (fun st entry =>
                  advance W flag st
                    (flat_map (file_items (fst entry)) (snd entry)))).
      intros entry st.
      eapply returns_bind; [|apply returns_ret].
      rewrite <- fold_advance.
      apply returns_for_in. intros file acc.
      apply toplevel_process_file_returns.
    + rewrite fold_advance, <- audio_files_of_file_items.
      apply returns_ret.
Qed.

Lemma toplevel_scan_directory_result d flag s :
  fst (Toplevel.scan_directory W d flag s)
  = if isdir W (normpath d)
    then Ok (map (toplevel_record_of W flag)
               (Backend.audio_files_of (os_walk W (normpath d))))
    else Raise (SystemExit 1).
Proof.
  destruct (isdir W (normpath d)) eqn:Hdir.
  - destruct (toplevel_scan_directory_returns d flag Hdir s) as [s' ->].
    reflexivity.
  - unfold Toplevel.scan_directory. rewrite Hdir. reflexivity.
Qed.

End ToplevelFacts.

(** The older copy prints the name of each file before it extracts it,
    outside any handler: on a name stdout cannot encode it raises, where
    the backend copy returns the record. *)
Lemma copies_differ_on_stray_name_counterexample :
  ~ copies_agree (os_path := posix) (console := strict_stdout) Stray.world
      "music" false initial_state initial_state.
Proof. unfold copies_agree. vm_compute. discriminate. Qed.

Example stray_name_in_both_copies :
  fst (Toplevel.scan_directory (os_path := posix) (console := strict_stdout)
         Stray.world "music" false initial_state)
  = Raise (PyException
      "'utf-8' codec can't encode character '\udce9' in position 25: surrogates not allowed")
  /\ fst (Backend.scan_directory (os_path := posix) (console := strict_stdout)
            Stray.world "music" false initial_state)
     = Ok [[("file_path", VStr ("music/" ++ Stray.name));
            ("file_type", VStr "mp3");
            ("duration", VFloat (info_length Samples.info44));
            ("bitrate", VInt (info_bitrate Samples.info44));
            ("sample_rate", VInt (info_sample_rate Samples.info44));
            ("channels", VInt (info_channels Samples.info44));
            ("title", VStr "Drone")]].
Proof. split; reflexivity. Qed.

(** Without librosa the older module does not load, while the backend
    copy scans. *)
Example older_copy_needs_librosa :
  fst (Toplevel.load Rerun.world initial_state)
  = Raise (PyException "No module named 'librosa'")
  /\ exists records,
       fst (Backend.scan_directory (os_path := posix) Rerun.world "music" true
              initial_state) = Ok records
       /\ length records = 3%nat.
Proof. split; [reflexivity|]. eexists. split; reflexivity. Qed.

(** C10, amended: where librosa can be imported, so that the older copy
    loads at all, and stdout accepts every line, the two copies of
    [scan_directory] return the same record sequence for every directory
    and every value of the flag, whatever state each starts in; only
    what they print differs. *)
Theorem scan_directory_copies_agree {os_path : OsPath} {console : Stdout}
    (W : World) (d : string) (flag : bool) (s1 s2 : pystate)
    (Himport : import_librosa W = None)
    (Haccepts : forall line, stdout_error line = None) :
  copies_agree W d flag s1 s2.
Proof.
  pose proof (accepting_console console Haccepts) as E. subst console.
  unfold copies_agree.
  rewrite toplevel_scan_directory_result, scan_directory_result.
  destruct (isdir W (normpath d)); [|reflexivity].
  f_equal. apply map_ext. intros item.
  unfold toplevel_record_of, record_of, estimate. now rewrite Himport.
Qed.

Lemma scan_directory_copies_agree_witness :
  copies_agree (os_path := posix) (console := accepting_stdout) Samples.world
    "music" true initial_state (after_print "later" initial_state).
Proof.
  apply (scan_directory_copies_agree Samples.world "music" true initial_state
           (after_print "later" initial_state)).
  - reflexivity.
  - intros line. reflexivity.
Defined.

(* ================================================================== *)
(** ** What a run calls and touches *)
(* ================================================================== *)

Lemma runs_with_ret {A : Type} (a : A) : runs_with (ret a) a [].
Proof. intros s. exists s. now rewrite app_nil_r. Qed.

Lemma runs_with_print line : runs_with (print line) tt [].
Proof.
  intros s. eexists. split; [reflexivity|]. simpl. now rewrite app_nil_r.
Qed.

Lemma runs_with_bind {A B : Type} (c : M A) (k : A -> M B) a b est1 est2 :
  runs_with c a est1 -> runs_with (k a) b est2 ->
  runs_with (bind c k) b (est1 ++ est2).
Proof.
  intros Hc Hk s.
  destruct (Hc s) as (s1 & E1 & He1 & Ho1 & Hw1).
  destruct (Hk s1) as (s2 & E2 & He2 & Ho2 & Hw2).
  exists s2. unfold bind. rewrite E1. split; [exact E2|].
  rewrite He2, He1, Ho2, Ho1, Hw2, Hw1, app_assoc. auto.
Qed.

Lemma runs_with_then {A B : Type} (c : M A) (k : A -> M B) a b est :
  runs_with c a [] -> runs_with (k a) b est -> runs_with (bind c k) b est.
Proof. intros Hc Hk. apply (runs_with_bind c k a b [] est Hc Hk). Qed.

Lemma runs_with_for_in {A S : Type} (body : A -> S -> M (loop_ctl S))
    (f : S -> A -> S) (g : A -> list string) :
  (forall x acc, runs_with (body x acc) (Next (f acc x)) (g x)) ->
  forall xs acc, runs_with (for_in xs body acc) (fold_left f xs acc)
                           (flat_map g xs).
Proof.
  intros Hbody xs. induction xs as [|x xs IH]; intros acc; simpl.
  - apply runs_with_ret.
  - eapply runs_with_bind; [apply Hbody | apply IH].
Qed.

Section BackendEffects.

Context {os_path : OsPath} (W : World).

Lemma calculate_bpm_runs_with p :
  runs_with (Backend.calculate_bpm W p) (estimate W p) (estimator_reached W p).
Proof.
  intros s.
  unfold Backend.calculate_bpm, estimate, estimator_reached,
    do_import_librosa, librosa_estimate.
  run.
  destruct (import_librosa W) as [msg|]; simpl.
  - eexists; split; [reflexivity|]. simpl. now rewrite app_nil_r.
  - destruct (librosa_tempo W p) as [e|[|sr lag Hw]]; simpl;
      eexists; (split; [reflexivity | auto]).
Qed.

Lemma fill_bpm_runs_with p flag md :
  runs_with (Backend.fill_bpm W p flag md)
            (with_bpm (estimate W p) flag md)
            (if negb (dict_has "bpm" md) && flag
             then estimator_reached W p else []).
Proof.
  unfold Backend.fill_bpm, with_bpm.
  destruct (negb (dict_has "bpm" md) && flag); [|apply runs_with_ret].
  rewrite <- (app_nil_r (estimator_reached W p)).
  eapply runs_with_bind; [apply calculate_bpm_runs_with|].
  destruct (truthy_bpm (estimate W p)); apply runs_with_ret.
Qed.

Lemma extractor_of_runs_with is_mp3 p flag :
  runs_with (extractor_of W is_mp3 p flag)
            (finish p (estimate W p) flag (parsed_of W (p, is_mp3)))
            (estimator_calls W flag (p, is_mp3)).
Proof.
  intros s. unfold estimator_calls, parsed_of. cbn [fst snd].
  destruct is_mp3; simpl;
    [unfold Backend.extract_mp3_metadata | unfold Backend.extract_mp4_metadata];
    unfold try_except, bind;
    [rewrite mp3_container_run; destruct (mp3_parsed W p) as [e|md]
    |rewrite mp4_container_run; destruct (mp4_parsed W p) as [e|md]];
    simpl;
    try (exists s; now rewrite app_nil_r);
    destruct (fill_bpm_runs_with p flag md s) as (s' & E & H);
    rewrite E; exists s'; auto.
Qed.

Lemma process_file_runs_with flag item results :
  runs_with (Backend.process_file W flag item results)
            (Next (results ++ [record_of W flag item])%list)
            (estimator_calls W flag item).
Proof.
  unfold Backend.process_file, record_of. destruct item as [p is_mp3].
  cbn [fst snd].
  rewrite <- (app_nil_r (estimator_calls W flag (p, is_mp3))).
  eapply runs_with_bind; [|apply runs_with_ret].
  destruct is_mp3;
    [apply (extractor_of_runs_with true) | apply (extractor_of_runs_with false)].
Qed.

Lemma scan_directory_runs_with d flag :
  isdir W (normpath d) = true ->
  runs_with (Backend.scan_directory W d flag)
            (map (record_of W flag)
               (Backend.audio_files_of (os_walk W (normpath d))))
            (flat_map (estimator_calls W flag)
               (Backend.audio_files_of (os_walk W (normpath d)))).
Proof.
  intros Hdir. unfold Backend.scan_directory. rewrite Hdir. cbn [negb].
  generalize (Backend.audio_files_of (os_walk W (normpath d))).
  intros items.
  eapply runs_with_then; [apply runs_with_ret|].
  eapply runs_with_then; [apply runs_with_print|].
  eapply runs_with_then; [apply runs_with_print|].
  destruct (Nat.eqb_spec (length items) 0) as [E|E].
  - apply length_zero_iff_nil in E. subst items.
    eapply runs_with_then; [apply runs_with_print | apply runs_with_ret].
  - eapply runs_with_then; [apply runs_with_print|].
    replace (map (record_of W flag) items)
      with (fold_left (fun acc x => (acc ++ [record_of W flag x])%list)
                      items []) by (now rewrite fold_append_map).
    apply runs_with_for_in. intros x acc. apply process_file_runs_with.
Qed.

End BackendEffects.

(* ================================================================== *)
(** ** Records *)
(* ================================================================== *)

(** What the container block leaves outside the table's keys is what
    the stream header put there. *)
Lemma parsed_of_other_key W is_mp3 p md key :
  parsed_of W (p, is_mp3) = inr md ->
  ~ In key (map fst (table_of is_mp3)) ->
  exists info,
    header_of W is_mp3 p = Some info
    /\ dict_get key md
       = dict_get key (structural p (file_type_of is_mp3) info).
Proof.
  unfold parsed_of, header_of. cbn [fst snd]. intros Hp Hkey.
  destruct is_mp3.
  - unfold mp3_parsed in Hp.
    destruct (MP3 W p) as [?|info]; [discriminate|].
    destruct (ID3 W p) as [?|tags]; [discriminate|].
    exists info. split; [reflexivity|].
    assert (fold_left (mp3_field tags) Backend.mp3_tag_mapping
              (structural p "mp3" info) = md) as <- by congruence.
    now apply mp3_fields_other.
  - unfold mp4_parsed in Hp.
    destruct (MP4 W p) as [?|[info audio]]; [discriminate|].
    destruct (fold_left _ _ _) as [md'|] eqn:Ef; [|discriminate].
    assert (md' = md) as -> by congruence.
    exists info. split; [reflexivity|].
    now apply (mp4_fields_other _ _ _ _ key Ef).
Qed.

Lemma container_of_parsed W is_mp3 p s md :
  fst (container_of W is_mp3 p s) = Ok md ->
  parsed_of W (p, is_mp3) = inr md.
Proof.
  rewrite container_of_run. unfold parsed_of. cbn [fst snd].
  destruct (if is_mp3 then mp3_parsed W p else mp4_parsed W p);
    simpl; congruence.
Qed.

(** X1: on any stdout the extractor returns a record for a file whose
    container block succeeded.  Unless stdout refused the diagnostic
    line of a failed estimation, the record has no [error] field, and
    its [file_path], [file_type] and four stream fields are those the
    parser started from: no tag and no tempo estimate overwrites them.
    When stdout refused that line, the record is the error record of
    the refusal, and the fields the parser had are lost. *)
Theorem parsed_record_keeps_structure {console : Stdout} (W : World)
    (is_mp3 : bool) (p : string) (flag : bool) (s : pystate) (md : pydict)
    (Hparsed : fst (container_of W is_mp3 p s) = Ok md) :
  exists info record s',
    header_of W is_mp3 p = Some info
    /\ extractor_of W is_mp3 p flag s = (Ok record, s')
    /\ match refused_diagnostic W p flag md with
       | Some msg => record = [("file_path", VStr p); ("error", VStr msg)]
       | None =>
           dict_get "error" record = None
           /\ dict_get "file_path" record = Some (VStr p)
           /\ dict_get "file_type" record = Some (VStr (file_type_of is_mp3))
           /\ dict_get "duration" record = Some (VFloat (info_length info))
           /\ dict_get "bitrate" record = Some (VInt (info_bitrate info))
           /\ dict_get "sample_rate" record
              = Some (VInt (info_sample_rate info))
           /\ dict_get "channels" record = Some (VInt (info_channels info))
       end.
Proof.
  apply container_of_parsed in Hparsed.
  assert (forall bpm key,
             key <> "bpm" -> key <> "bpm_calculated" ->
             ~ In key (map fst (table_of is_mp3)) ->
             exists info,
               header_of W is_mp3 p = Some info
               /\ dict_get key (with_bpm bpm flag md)
                  = dict_get key (structural p (file_type_of is_mp3) info))
    as Hkey.
  { intros bpm key H1 H2 Hnot. rewrite with_bpm_other by assumption.
    now apply parsed_of_other_key. }
  assert (forall key, In key ["error"; "file_path"; "file_type"; "duration";
                              "bitrate"; "sample_rate"; "channels"] ->
                      ~ In key (map fst (table_of is_mp3))) as Hout.
  { intros key Hin F. destruct is_mp3; simpl in Hin, F;
      repeat (destruct Hin as [<-|Hin];
              [repeat (destruct F as [F|F]; [discriminate F|]); exact F|]);
      exact Hin. }
  destruct (Hkey None "error") as (info & Hh & _);
    [discriminate | discriminate | apply Hout; simpl; auto |].
  assert (forall bpm,
            dict_get "error" (with_bpm bpm flag md) = None
            /\ dict_get "file_path" (with_bpm bpm flag md) = Some (VStr p)
            /\ dict_get "file_type" (with_bpm bpm flag md)
               = Some (VStr (file_type_of is_mp3))
            /\ dict_get "duration" (with_bpm bpm flag md)
               = Some (VFloat (info_length info))
            /\ dict_get "bitrate" (with_bpm bpm flag md)
               = Some (VInt (info_bitrate info))
            /\ dict_get "sample_rate" (with_bpm bpm flag md)
               = Some (VInt (info_sample_rate info))
            /\ dict_get "channels" (with_bpm bpm flag md)
               = Some (VInt (info_channels info))) as Hkeeps.
  { intros bpm. repeat split.
    all: match goal with
         | |- dict_get ?k _ = _ =>
             destruct (Hkey bpm k) as (info' & Hh' & ->);
             [discriminate | discriminate | apply Hout; simpl; auto 10 |];
             rewrite Hh in Hh'; injection Hh' as <-; reflexivity
         end. }
  assert (with_bpm None flag md = md) as Hnone
    by (unfold with_bpm; now destruct (negb (dict_has "bpm" md) && flag)).
  exists info. rewrite extractor_outcome.
  unfold extraction, refused_diagnostic. rewrite Hparsed.
  destruct (negb (dict_has "bpm" md) && flag) eqn:Hstep.
  - destruct (estimation W p) as [e|n].
    + destruct (stdout_error (diagnostic p e)) as [msg|].
      * eexists _, _. split; [exact Hh|]. split; reflexivity.
      * eexists _, _. split; [exact Hh|]. split; [reflexivity|].
        rewrite <- Hnone. apply Hkeeps.
    + eexists _, _. split; [exact Hh|]. split; [reflexivity|]. apply Hkeeps.
  - eexists _, _. split; [exact Hh|]. split; [reflexivity|].
    rewrite <- Hnone. apply Hkeeps.
Qed.

Lemma parsed_record_keeps_structure_witness :
  (exists info record s',
     header_of Samples.world false "music/live/b.m4a" = Some info
     /\ extractor_of (console := strict_stdout) Samples.world false
          "music/live/b.m4a" true initial_state = (Ok record, s')
     /\ dict_get "error" record = None
     /\ dict_get "file_path" record = Some (VStr "music/live/b.m4a")
     /\ dict_get "file_type" record = Some (VStr "mp4")
     /\ dict_get "duration" record = Some (VFloat (info_length info))
     /\ dict_get "bitrate" record = Some (VInt (info_bitrate info))
     /\ dict_get "sample_rate" record = Some (VInt (info_sample_rate info))
     /\ dict_get "channels" record = Some (VInt (info_channels info)))
  /\ (exists info record s',
        header_of Stray.world true ("music/" ++ Stray.name) = Some info
        /\ extractor_of (console := strict_stdout) Stray.world true
             ("music/" ++ Stray.name) true initial_state = (Ok record, s')
        /\ record
           = [("file_path", VStr ("music/" ++ Stray.name));
              ("error",
               VStr "'utf-8' codec can't encode character '\udce9' in position 36: surrogates not allowed")]).
Proof.
  split.
  - exact (parsed_record_keeps_structure (console := strict_stdout)
             Samples.world false "music/live/b.m4a" true initial_state _
             eq_refl).
  - exact (parsed_record_keeps_structure (console := strict_stdout)
             Stray.world true ("music/" ++ Stray.name) true initial_state _
             eq_refl).
Defined.

(** X2: a file that carries a tempo tag keeps it: whatever the flag, the
    extractor returns the container block's record as it is and leaves
    the state untouched, so the estimator is not called and nothing is
    printed. *)
Theorem tagged_tempo_is_kept (W : World) (is_mp3 : bool) (p : string)
    (flag : bool) (s : pystate) (md : pydict)
    (Hparsed : fst (container_of W is_mp3 p s) = Ok md)
    (Hbpm : dict_get "bpm" md <> None) :
  extractor_of W is_mp3 p flag s = (Ok md, s).
Proof.
  assert (dict_has "bpm" md = true) as Hhas.
  { unfold dict_has. unfold dict_get in Hbpm.
    destruct (lookup "bpm" md); [reflexivity | contradiction]. }
  rewrite container_of_run in Hparsed. simpl in Hparsed.
  destruct is_mp3; simpl;
    [unfold Backend.extract_mp3_metadata | unfold Backend.extract_mp4_metadata];
    unfold try_except, bind;
    [rewrite mp3_container_run; destruct (mp3_parsed W p) as [e|md0]
    |rewrite mp4_container_run; destruct (mp4_parsed W p) as [e|md0]];
    simpl in *; try discriminate;
    assert (md0 = md) as -> by congruence;
    unfold Backend.fill_bpm; rewrite Hhas; reflexivity.
Qed.

Lemma tagged_tempo_is_kept_witness :
  extractor_of Samples.world true "music/a.MP3" true initial_state
  = (Ok (structural "music/a.MP3" "mp3" Samples.info44
         ++ [("title", VStr "Intro"); ("year", VStr "1999");
             ("bpm", VStr "128")])%list, initial_state).
Proof.
  apply (tagged_tempo_is_kept Samples.world true "music/a.MP3" true
           initial_state).
  - reflexivity.
  - discriminate.
Defined.

(** X3: when the estimation fails on a file without a tempo tag (the
    import, the decoding, the estimation or the rounding), the file is
    not failed as long as stdout takes the diagnostic line: the
    extractor returns the container block's record unchanged, without
    [bpm], [bpm_calculated] or [error], and the only traces are the
    estimator call and that one line on stdout.  When stdout refuses the
    line, the extractor returns the error record of that refusal and
    nothing is printed. *)
Theorem estimator_failure_degrades {console : Stdout} (W : World)
    (is_mp3 : bool) (p : string) (s : pystate) (md : pydict) (e : string)
    (Hparsed : fst (container_of W is_mp3 p s) = Ok md)
    (Hno : dict_get "bpm" md = None)
    (Hfail : estimation W p = inl e) :
  extractor_of W is_mp3 p true s
  = match stdout_error (diagnostic p e) with
    | None =>
        (Ok md,
         {| stdout := (stdout s ++ [diagnostic p e])%list;
            estimated := estimated (after_estimate W p s);
            opened := opened s;
            written := written s |})
    | Some msg =>
        (Ok [("file_path", VStr p); ("error", VStr msg)],
         after_estimate W p s)
    end.
Proof.
  assert (dict_has "bpm" md = false) as Hhas by (now apply dict_has_get).
  apply container_of_parsed in Hparsed.
  rewrite extractor_outcome. unfold extraction.
  rewrite Hparsed, Hhas, Hfail. cbn [negb andb].
  destruct (stdout_error (diagnostic p e)) as [msg|]; [reflexivity|].
  unfold after_print, after_estimate, print.
  cbn [stdout_error accepting_stdout snd].
  destruct (import_librosa W); reflexivity.
Qed.

Lemma estimator_failure_degrades_witness :
  extractor_of (console := strict_stdout) Deaf.world false "music/live/b.m4a"
    true initial_state
  = (Ok (structural "music/live/b.m4a" "mp4" Samples.info44
         ++ [("title", VStr "Outro"); ("track_number", VStr "(3, 12)")])%list,
     {| stdout := [newline ++ "Error calculating BPM for music/live/b.m4a: unsupported encoding"];
        estimated := ["music/live/b.m4a"];
        opened := [];
        written := [] |})
  /\ extractor_of (console := strict_stdout) Stray.world true
       ("music/" ++ Stray.name) true initial_state
     = (Ok [("file_path", VStr ("music/" ++ Stray.name));
            ("error",
             VStr "'utf-8' codec can't encode character '\udce9' in position 36: surrogates not allowed")],
        {| stdout := []; estimated := ["music/" ++ Stray.name];
           opened := []; written := [] |}).
Proof.
  split.
  - exact (estimator_failure_degrades (console := strict_stdout) Deaf.world
             false "music/live/b.m4a" initial_state _ "unsupported encoding"
             eq_refl eq_refl eq_refl).
  - exact (estimator_failure_degrades (console := strict_stdout) Stray.world
             true ("music/" ++ Stray.name) initial_state _
             "unsupported encoding" eq_refl eq_refl eq_refl).
Defined.

(** X4: the MP3 parser fills [key] and [initial_key] from the same
    identifier, so in every record it returns the two fields are equal,
    both present or both absent. *)
Theorem key_and_initial_key_agree (W : World) (p : string) (flag : bool)
    (s : pystate) :
  exists record s',
    Backend.extract_mp3_metadata W p flag s = (Ok record, s')
    /\ dict_get "key" record = dict_get "initial_key" record.
Proof.
  destruct (extract_mp3_returns W p flag s) as [s' E].
  exists (finish p (estimate W p) flag (mp3_parsed W p)), s'.
  split; [exact E|]. unfold finish.
  destruct (mp3_parsed W p) as [e|md] eqn:Hp; [reflexivity|].
  rewrite !with_bpm_other by discriminate.
  unfold mp3_parsed in Hp.
  destruct (MP3 W p) as [?|info]; [discriminate|].
  destruct (ID3 W p) as [?|tags]; [discriminate|].
  assert (fold_left (mp3_field tags) Backend.mp3_tag_mapping
            (structural p "mp3" info) = md) as <- by congruence.
  rewrite (mp3_fields_key tags _ _ "key" ["TKEY"] mp3_keys_distinct)
    by (simpl; auto 10).
  rewrite (mp3_fields_key tags _ _ "initial_key" ["TKEY"] mp3_keys_distinct)
    by (simpl; auto 20).
  destruct (first_present ["TKEY"] tags); reflexivity.
Qed.

(* ================================================================== *)
(** ** What a scan calls, touches and isolates *)
(* ================================================================== *)





(** X6: [scan_directory] is read-only: root valid or not, flag set or
    not, it opens no file for writing and writes no document. *)
Theorem scan_directory_writes_nothing {os_path : OsPath} (W : World)
    (d : string) (flag : bool) (s : pystate) :
  opened (snd (Backend.scan_directory W d flag s)) = opened s
  /\ written (snd (Backend.scan_directory W d flag s)) = written s.
Proof.
  destruct (isdir W (normpath d)) eqn:Hisdir.
  - destruct (scan_directory_runs_with W d flag Hisdir s)
      as (s' & E & _ & Ho & Hw).
    rewrite E. auto.
  - rewrite scan_directory_exits by exact Hisdir. split; reflexivity.
Qed.

Lemma record_of_off_unmarked W item :
  dict_get "bpm_calculated" (record_of W false item) = None.
Proof.
  unfold record_of, finish. destruct item as [p is_mp3]. cbn [fst snd].
  destruct is_mp3.
  - destruct (mp3_parsed W p) as [e|md] eqn:E; [reflexivity|].
    rewrite with_bpm_off. now apply (mp3_parsed_no_flag W p).
  - destruct (mp4_parsed W p) as [e|md] eqn:E; [reflexivity|].
    rewrite with_bpm_off. now apply (mp4_parsed_no_flag W p).
Qed.

(** X7: with tempo estimation disabled no record of a scan carries
    [bpm_calculated]. *)
Theorem disabled_estimation_marks_nothing {os_path : OsPath} (W : World)
    (d : string) (s : pystate) (results : list pydict)
    (Hscan : fst (Backend.scan_directory W d false s) = Ok results) :
  Forall (fun record => dict_get "bpm_calculated" record = None) results.
Proof.
  rewrite scan_directory_result in Hscan.
  destruct (isdir W (normpath d)); [|discriminate].
  injection Hscan as <-. apply Forall_forall. intros record Hin.
  apply in_map_iff in Hin. destruct Hin as (item & <- & _).
  apply record_of_off_unmarked.
Qed.

Lemma disabled_estimation_marks_nothing_witness :
  Forall (fun record => dict_get "bpm_calculated" record = None)
    (map (record_of Samples.world false)
       [("music/a.MP3", true); ("music/bad.mp3", true);
        ("music/live/b.m4a", false)]).
Proof.
  apply (disabled_estimation_marks_nothing Samples.world "music"
           initial_state).
  reflexivity.
Defined.

Lemma record_of_no_import W flag item msg :
  import_librosa W = Some msg ->
  record_of W flag item = record_of W false item.
Proof.
  intros Himport. unfold record_of, finish, estimate. rewrite Himport.
  destruct (if snd item then _ else _) as [e|md]; [reflexivity|].
  rewrite with_bpm_off. unfold with_bpm. simpl.
  now destruct (negb (dict_has "bpm" md) && flag).
Qed.

Lemma record_of_same_but_for p W1 W2 flag item :
  same_but_for p W1 W2 -> fst item <> p ->
  record_of W1 flag item = record_of W2 flag item.
Proof.
  intros (_ & Himport & Hrest) Hne.
  destruct (Hrest (fst item) Hne) as (H3 & Hid & H4 & Ht).
  unfold record_of, estimate, mp3_parsed, mp4_parsed.
  now rewrite Himport, H3, Hid, H4, Ht.
Qed.

(** X9: one file's failure stays with that file: if two worlds have the
    same tree and differ only in what the libraries say about the file
    at [p], their scans return sequences of the same length that agree
    at every position whose record is not the one of [p]. *)
Theorem other_files_unaffected {os_path : OsPath} (W1 W2 : World)
    (p d : string) (flag : bool) (s1 s2 : pystate)
    (results1 results2 : list pydict)
    (Hsame : same_but_for p W1 W2)
    (Hscan1 : fst (Backend.scan_directory W1 d flag s1) = Ok results1)
    (Hscan2 : fst (Backend.scan_directory W2 d flag s2) = Ok results2) :
  length results1 = length results2
  /\ forall i record,
       nth_error results1 i = Some record ->
       dict_get "file_path" record <> Some (VStr p) ->
       nth_error results2 i = Some record.
Proof.
  rewrite scan_directory_result in Hscan1, Hscan2.
  unfold isdir, os_walk in *. pose proof Hsame as (Hfs & _).
  rewrite Hfs in Hscan1.
  destruct (fs W2 (normpath d)) as [t|]; [|discriminate].
  injection Hscan1 as <-. injection Hscan2 as <-.
  split; [now rewrite !length_map|].
  intros i record Hnth Hpath.
  rewrite nth_error_map in *.
  destruct (nth_error _ i) as [item|]; [|discriminate].
  simpl in *. injection Hnth as <-.
  rewrite record_of_path in Hpath.
  f_equal. symmetry. apply (record_of_same_but_for p); [exact Hsame|].
  intros E. apply Hpath. now rewrite E.
Qed.

Lemma other_files_unaffected_witness :
  length (map (record_of Samples.world true)
            [("music/a.MP3", true); ("music/bad.mp3", true);
             ("music/live/b.m4a", false)])
  = length (map (record_of Broken.world true)
              [("music/a.MP3", true); ("music/bad.mp3", true);
               ("music/live/b.m4a", false)])
  /\ forall i record,
       nth_error (map (record_of Samples.world true)
                    [("music/a.MP3", true); ("music/bad.mp3", true);
                     ("music/live/b.m4a", false)]) i = Some record ->
       dict_get "file_path" record <> Some (VStr "music/a.MP3") ->
       nth_error (map (record_of Broken.world true)
                    [("music/a.MP3", true); ("music/bad.mp3", true);
                     ("music/live/b.m4a", false)]) i = Some record.
Proof.
  apply (other_files_unaffected Samples.world Broken.world "music/a.MP3"
           "music" true initial_state initial_state).
  - repeat split; try reflexivity;
      destruct (String.eqb_spec p "music/a.MP3") as [->|Hp];
      try contradiction; simpl;
      apply String.eqb_neq in Hp; now rewrite Hp.
  - reflexivity.
  - reflexivity.
Defined.

(* ================================================================== *)
(** ** The whole run *)
(* ================================================================== *)

Lemma bind_after {A B : Type} (c : M A) (k : A -> M B) a est s :
  runs_with c a est ->
  exists s1,
    bind c k s = k a s1
    /\ opened s1 = opened s /\ written s1 = written s.
Proof.
  intros Hc. destruct (Hc s) as (s1 & E & _ & Ho & Hw).
  exists s1. unfold bind. rewrite E. auto.
Qed.

Section WholeRun.

Context {os_path : OsPath} (W : World).

(** The flag [main] ends up with: the one given, or [True] when librosa
    cannot be imported. *)
Lemma main_flag_runs_with (no_bpm_calc : bool) :
  exists flag,
    runs_with
      (if negb no_bpm_calc then
         match import_librosa W with
         | None =>
             print "BPM calculation enabled - will calculate BPM for files that don't have it in metadata" ;;
             ret no_bpm_calc
         | Some _ =>
             print "Warning: librosa library not found. BPM calculation will be disabled." ;;
             print "To enable BPM calculation, install librosa with: pip install librosa numpy" ;;
             ret true
         end
       else ret no_bpm_calc)
      flag []
    /\ (flag = no_bpm_calc \/ exists msg, import_librosa W = Some msg).
Proof.
  destruct no_bpm_calc; cbn [negb].
  - exists true. split; [apply runs_with_ret | now left].
  - destruct (import_librosa W) as [msg|].
    + exists true. split; [|right; now exists msg].
      repeat (eapply runs_with_then; [apply runs_with_print|]).
      apply runs_with_ret.
    + exists false. split; [|now left].
      eapply runs_with_then; [apply runs_with_print | apply runs_with_ret].
Qed.

Lemma record_of_main_flag no_bpm_calc flag item :
  flag = no_bpm_calc \/ (exists msg, import_librosa W = Some msg) ->
  record_of W (negb flag) item = record_of W (negb no_bpm_calc) item.
Proof.
  intros [->|[msg Himport]]; [reflexivity|].
  now rewrite (record_of_no_import W (negb flag) item msg),
              (record_of_no_import W (negb no_bpm_calc) item msg).
Qed.

End WholeRun.

(** On a directory [main] comes to [save_metadata] with the records of
    the scan, having opened and written nothing. *)
Lemma main_reaches_save {os_path : OsPath} (W : World) (d output : string)
    (no_bpm_calc : bool) (s : pystate) :
  isdir W (normpath d) = true ->
  exists s3,
    Backend.main W d output no_bpm_calc s
    = Backend.save_metadata W
        (map (record_of W (negb no_bpm_calc))
           (Backend.audio_files_of (os_walk W (normpath d))))
        output s3
    /\ opened s3 = opened s /\ written s3 = written s.
Proof.
  intros Hisdir. unfold Backend.main.
  match goal with
  | |- exists s', bind ?c ?k ?s0 = _ /\ _ =>
      destruct (bind_after c k tt [] s0 (runs_with_print _))
        as (s1 & -> & Ho1 & Hw1)
  end.
  destruct (main_flag_runs_with W no_bpm_calc) as (flag & Hflag & Hcases).
  match goal with
  | |- exists s', bind ?c ?k ?s0 = _ /\ _ =>
      destruct (bind_after c k flag [] s0 Hflag) as (s2 & -> & Ho2 & Hw2)
  end.
  match goal with
  | |- exists s', bind ?c ?k ?s0 = _ /\ _ =>
      destruct (bind_after c k _ _ s0
                  (scan_directory_runs_with W d (negb flag) Hisdir))
        as (s3 & -> & Ho3 & Hw3)
  end.
  exists s3.
  replace (map (record_of W (negb flag))
             (Backend.audio_files_of (os_walk W (normpath d))))
    with (map (record_of W (negb no_bpm_calc))
            (Backend.audio_files_of (os_walk W (normpath d))))
    by (apply map_ext; intros item; symmetry;
        now apply record_of_main_flag).
  rewrite Ho3, Ho2, Ho1, Hw3, Hw2, Hw1. auto.
Qed.

(** X10: on a directory and a stdout that accepts every line, when the
    write to the normalised output path succeeds (the file opens and the
    report is dumped into it), [main] succeeds, opens only that path and
    writes there one report: its [metadata] is the sequence
    [scan_directory] returns for the flag [not no_bpm_calc] (also when
    librosa is missing and [main] switches estimation off) and its
    [file_count] is the length of that sequence. *)
Theorem main_writes_the_scan {os_path : OsPath} {console : Stdout}
    (W : World) (d output : string) (no_bpm_calc : bool) (t : dirtree)
    (s : pystate)
    (Haccepts : forall line, stdout_error line = None)
    (Hdir : fs W (normpath d) = Some t)
    (Hok : write_error W (normpath output) = None) :
  exists results s',
    (forall s0,
        fst (Backend.scan_directory W d (negb no_bpm_calc) s0) = Ok results)
    /\ Backend.main W d output no_bpm_calc s = (Ok tt, s')
    /\ opened s' = (opened s ++ [normpath output])%list
    /\ written s'
       = (written s
          ++ [(normpath output,
               {| timestamp := now W;
                  system := platform_system W;
                  file_count := Z.of_nat (length results);
                  metadata := results |})])%list.
Proof.
  pose proof (accepting_console console Haccepts) as E. subst console.
  clear Haccepts.
  assert (isdir W (normpath d) = true) as Hisdir
    by (unfold isdir; now rewrite Hdir).
  set (items := Backend.audio_files_of (os_walk W (normpath d))).
  exists (map (record_of W (negb no_bpm_calc)) items).
  assert (forall s0,
             fst (Backend.scan_directory W d (negb no_bpm_calc) s0)
             = Ok (map (record_of W (negb no_bpm_calc)) items)) as Hscan.
  { intros s0. rewrite scan_directory_result. now rewrite Hisdir. }
  assert (exists s',
             Backend.main W d output no_bpm_calc s = (Ok tt, s')
             /\ opened s' = (opened s ++ [normpath output])%list
             /\ written s'
                = (written s
                   ++ [(normpath output,
                        make_report W
                          (map (record_of W (negb no_bpm_calc)) items))])%list)
    as (s' & Hmain & Hopened & Hwritten).
  { destruct (main_reaches_save W d output no_bpm_calc s Hisdir)
      as (s3 & -> & Ho3 & Hw3).
    fold items.
    pose proof (backend_save_contract W
                  (map (record_of W (negb no_bpm_calc)) items) output s3)
      as Hsave.
    cbv zeta in Hsave. rewrite Hok in Hsave.
    destruct Hsave as (Hr & Hopen & Hwr).
    destruct (Backend.save_metadata W _ output s3) as [r s4].
    cbn [fst snd] in *. subst r. exists s4.
    split; [reflexivity|].
    rewrite Hopen, Hwr, Ho3, Hw3.
    split; reflexivity. }
  exists s'. split; [exact Hscan|]. split; [exact Hmain|].
  split; [exact Hopened|].
  rewrite Hwritten. unfold make_report. reflexivity.
Qed.

Lemma main_writes_the_scan_witness :
  exists results s',
    (forall s0,
        fst (Backend.scan_directory (console := accepting_stdout)
               Samples.world "music/" (negb true) s0)
        = Ok results)
    /\ Backend.main (console := accepting_stdout) Samples.world "music/"
         "report.json" true initial_state
       = (Ok tt, s')
    /\ opened s' = (opened initial_state ++ [normpath "report.json"])%list
    /\ written s'
       = (written initial_state
          ++ [(normpath "report.json",
               {| timestamp := now Samples.world;
                  system := platform_system Samples.world;
                  file_count := Z.of_nat (length results);
                  metadata := results |})])%list.
Proof.
  exact (main_writes_the_scan (console := accepting_stdout) Samples.world
           "music/" "report.json" true Samples.music initial_state
           (fun _ => eq_refl) eq_refl eq_refl).
Defined.



(* ================================================================== *)
(** ** Scan and report *)
(* ================================================================== *)

(** The items the scanner collects are the eligible paths of the tree
    in walk order. *)
Lemma audio_files_are_eligible_paths {os_path : OsPath} top t :
  map fst (Backend.audio_files_of (walk_tree top t)) = eligible_paths top t.
Proof.
  revert top. induction t as [name files subdirs IH] using dirtree_induction.
  intros top. cbn [walk_tree eligible_paths].
  change ((top, files) :: ?l) with ([(top, files)] ++ l)%list.
  rewrite audio_files_of_app, map_app. f_equal.
  - unfold Backend.audio_files_of. cbn [flat_map fst snd]. rewrite app_nil_r.
    induction files as [|file files IHf]; cbn [flat_map filter map];
      [reflexivity|].
    change (endswith_any (lower file) [".mp3"; ".mp4"; ".m4a"])
      with (eligible file).
    destruct (eligible file); cbn [app map fst]; now rewrite IHf.
  - induction IH as [|sub subdirs Hsub _ IHs]; cbn [flat_map map];
      [reflexivity|].
    rewrite audio_files_of_app, map_app, IHs. f_equal.
    destruct sub as [n f sd]. apply Hsub.
Qed.

(** Whenever [save_metadata] returns, it has written one report. *)
Lemma save_metadata_returned {os_path : OsPath} (W : World) records output s :
  fst (Backend.save_metadata W records output s) = Ok tt ->
  exists path,
    written (snd (Backend.save_metadata W records output s))
    = (written s ++ [(path, make_report W records)])%list.
Proof.
  pose proof (backend_save_contract W records output s) as H.
  cbv zeta in H. intros Hok.
  destruct (write_error W (normpath output)) as [e|].
  - destruct H as (_ & H).
    destruct (write_error W (basename (normpath output))) as [e2|].
    + destruct H as (Hr & _). congruence.
    + destruct H as (_ & Hw). eauto.
  - destruct H as (_ & _ & Hw). eauto.
Qed.

(** The scanner prints the root before it looks for files: on a root
    that stdout cannot encode it raises there and returns no record. *)
Lemma scan_raises_on_stray_root_counterexample :
  ~ scan_report_contract (os_path := posix) (console := strict_stdout)
      Cafe.world Cafe.root true Cafe.tree initial_state.
Proof.
  unfold scan_report_contract. cbv zeta. intros (results & s' & H & _).
  vm_compute in H. discriminate H.
Qed.

Example stray_root_scan :
  fs Cafe.world (normpath (OsPath := posix) Cafe.root) = Some Cafe.tree
  /\ length (filter eligible (tree_files Cafe.tree)) = 1%nat
  /\ Backend.scan_directory (os_path := posix) (console := strict_stdout)
       Cafe.world Cafe.root true initial_state
     = (Raise (PyException
          "'utf-8' codec can't encode character '\udce9' in position 23: surrogates not allowed"),
        initial_state).
Proof. repeat split; reflexivity. Qed.

(** C4, amended: on a stdout that accepts every line, on a directory
    tree with N eligible files the scanner returns N records, one per
    eligible file in discovery order, each carrying its file's path; a
    report that [save_metadata] or [main] writes from them has
    [file_count] N; and the run succeeds when the output path can be
    written, also when no file is eligible and the report is empty. *)
Theorem scan_one_record_per_eligible_file {os_path : OsPath}
    {console : Stdout} (W : World) (d : string) (flag : bool) (t : dirtree)
    (s : pystate)
    (Haccepts : forall line, stdout_error line = None)
    (Hdir : fs W (normpath d) = Some t) :
  scan_report_contract W d flag t s.
Proof.
  pose proof (accepting_console console Haccepts) as E. subst console.
  clear Haccepts.
  unfold scan_report_contract. cbv zeta.
  assert (isdir W (normpath d) = true) as Hisdir
    by (unfold isdir; now rewrite Hdir).
  assert (os_walk W (normpath d) = walk_tree (normpath d) t) as Hwalk
    by (unfold os_walk; now rewrite Hdir).
  set (items := Backend.audio_files_of (walk_tree (normpath d) t)).
  assert (forall f, length (map (record_of W f) items)
                    = length (filter eligible (tree_files t))) as Hlen
    by (intros f; rewrite length_map; apply (audio_files_count W)).
  assert (forall f, map (dict_get "file_path") (map (record_of W f) items)
                    = map (fun p => Some (VStr p))
                        (eligible_paths (normpath d) t)) as Hpaths.
  { intros f. rewrite <- audio_files_are_eligible_paths. fold items.
    rewrite !map_map. apply map_ext. intros item. apply record_of_path. }
  destruct (scan_directory_returns W d flag Hisdir s) as [s' E].
  rewrite Hwalk in E. fold items in E.
  exists (map (record_of W flag) items), s'.
  split; [exact E|]. split; [apply Hlen|].
  split; [apply Hpaths|]. split; [|split].
  - intros HN. specialize (Hlen flag). rewrite HN in Hlen.
    now apply length_zero_iff_nil.
  - intros output s0 Hok.
    destruct (save_metadata_returned W _ output s0 Hok) as (path & Hw).
    exists path. rewrite Hw. unfold make_report. now rewrite Hlen.
  - intros output no_bpm_calc s0.
    destruct (main_reaches_save W d output no_bpm_calc s0 Hisdir)
      as (s3 & Hmain & _ & Hw3).
    rewrite Hwalk in Hmain. fold items in Hmain. rewrite Hmain. split.
    + intros Hok.
      destruct (save_metadata_ok W (map (record_of W (negb no_bpm_calc)) items)
                  output Hok s3) as [s4 ->].
      reflexivity.
    + intros Hok.
      destruct (save_metadata_returned W _ output s3 Hok) as (path & Hw).
      exists path, (make_report W (map (record_of W (negb no_bpm_calc)) items)).
      rewrite Hw, Hw3. cbn [file_count metadata make_report].
      rewrite Hlen. auto.
Qed.

Lemma scan_one_record_per_eligible_file_witness :
  scan_report_contract (os_path := posix) (console := accepting_stdout)
    Samples.world "music/" true Samples.music initial_state
  /\ scan_report_contract (os_path := posix) (console := accepting_stdout)
       Quiet.world "docs" true Quiet.docs initial_state.
Proof.
  split.
  - apply (scan_one_record_per_eligible_file Samples.world "music/" true
             Samples.music initial_state).
    + intros line. reflexivity.
    + reflexivity.
  - apply (scan_one_record_per_eligible_file Quiet.world "docs" true
             Quiet.docs initial_state).
    + intros line. reflexivity.
    + reflexivity.
Defined.

Example three_eligible_files :
  length (filter eligible (tree_files Samples.music)) = 3%nat
  /\ eligible_paths "music" Samples.music
     = ["music/a.MP3"; "music/bad.mp3"; "music/live/b.m4a"].
Proof. split; reflexivity. Qed.

Example no_eligible_file :
  length (filter eligible (tree_files Quiet.docs)) = 0%nat
  /\ Backend.main Quiet.world "docs" "out/report.json" false initial_state
     = (Ok tt,
        {| stdout := ["Detected operating system: Linux";
                      "BPM calculation enabled - will calculate BPM for files that don't have it in metadata";
                      "Scanning directory: docs"; "Finding audio files...";
                      "No MP3 or MP4 files found in the directory.";
                      newline ++ "Metadata saved to out/report.json";
                      "Processed 0 audio files."];
           estimated := [];
           opened := ["out/report.json"];
           written := [("out/report.json",
                        {| timestamp := "2024-01-01 00:00:00";
                           system := "Linux";
                           file_count := 0;
                           metadata := [] |})] |}).
Proof. split; reflexivity. Qed.

(* ================================================================== *)
(** ** The scanner on any stdout *)
(* ================================================================== *)

Section ScannerOnAnyStdout.

Context {os_path : OsPath} {console : Stdout} (W : World).

Lemma extractor_returns_on is_mp3 p flag :
  returns (extractor_of W is_mp3 p flag) (record_on W flag (p, is_mp3)).
Proof.
  intros s. rewrite extractor_outcome. unfold extraction, record_on.
  cbn [fst snd].
  destruct (parsed_of W (p, is_mp3)) as [e|md]; [eexists; reflexivity|].
  destruct (negb (dict_has "bpm" md) && flag); [|eexists; reflexivity].
  destruct (estimation W p) as [e|n]; [|eexists; reflexivity].
  destruct (stdout_error (diagnostic p e)); eexists; reflexivity.
Qed.

Lemma process_file_returns_on flag item results :
  returns (Backend.process_file W flag item results)
          (Next (results ++ [record_on W flag item])%list).
Proof.
  unfold Backend.process_file. destruct item as [p is_mp3]. cbn [fst snd].
  eapply returns_bind; [|apply returns_ret].
  destruct is_mp3;
    [apply (extractor_returns_on true) | apply (extractor_returns_on false)].
Qed.

Lemma print_then {A : Type} line (k : M A) s :
  fst ((print line ;; k) s) = printing line (fst (k (after_print line s))).
Proof.
  unfold bind, print, printing, after_print.
  cbn [print stdout_error accepting_stdout snd].
  now destruct (stdout_error line).
Qed.

Lemma scan_directory_outcome (d : string) (flag : bool)
    (s : pystate) :
  fst (Backend.scan_directory W d flag s)
  = scan_outcome W d
      (map (record_on W flag)
         (Backend.audio_files_of (os_walk W (normpath d)))).
Proof.
  unfold Backend.scan_directory, scan_outcome.
  destruct (isdir W (normpath d)); cbn [negb].
  - unfold bind at 1, ret at 1. rewrite !print_then.
    generalize (Backend.audio_files_of (os_walk W (normpath d))).
    intros items. f_equal. f_equal.
    destruct items as [|item items]; cbn [length Nat.eqb map].
    + rewrite print_then. reflexivity.
    + rewrite print_then, length_map. cbn [length]. f_equal.
      match goal with
      | |- fst (for_in ?xs ?body ?start ?s0) = _ =>
          destruct (returns_for_in body
                      (fun results x => (results ++ [record_on W flag x])%list)
                      (process_file_returns_on flag) xs start s0) as [s' ->]
      end.
      cbn [fst]. now rewrite fold_append_map.
  - unfold bind, print, printing, sys_exit.
    now destruct (stdout_error _).
Qed.


Lemma record_on_path flag item :
  dict_get "file_path" (record_on W flag item) = Some (VStr (fst item)).
Proof.
  pose proof (record_of_path W false item) as Hoff.
  unfold record_of, finish in Hoff. unfold record_on, parsed_of.
  destruct (if snd item then _ else _) as [e|md]; [reflexivity|].
  rewrite with_bpm_off in Hoff.
  destruct (negb _ && flag); [|exact Hoff].
  destruct (estimation W (fst item)) as [e|n].
  - destruct (stdout_error _); [reflexivity | exact Hoff].
  - rewrite with_bpm_other by discriminate. exact Hoff.
Qed.

(** A record has an [error] field only as the error record of a failed
    container block or of a refused diagnostic line. *)
Lemma record_on_cases flag item :
  dict_get "error" (record_on W flag item) = None
  \/ (exists e, parsed_of W item = inl e
                /\ record_on W flag item = error_record (fst item) e)
  \/ (exists e msg,
        flag = true
        /\ estimation W (fst item) = inl e
        /\ stdout_error (diagnostic (fst item) e) = Some msg
        /\ record_on W flag item = error_record (fst item) msg).
Proof.
  destruct item as [p is_mp3]. unfold record_on. cbn [fst].
  destruct (parsed_of W (p, is_mp3)) as [e|md] eqn:Hparsed;
    [right; left; eauto|].
  assert (forall bpm, dict_get "error" (with_bpm bpm flag md) = None) as Hno.
  { intros bpm. rewrite with_bpm_other by discriminate.
    destruct (parsed_of_other_key W is_mp3 p md "error" Hparsed)
      as (info & _ & ->); [|reflexivity].
    destruct is_mp3; simpl; intros F;
      repeat (destruct F as [F|F]; [discriminate F|]); exact F. }
  assert (with_bpm None flag md = md) as Hnone
    by (unfold with_bpm; now destruct (negb (dict_has "bpm" md) && flag)).
  destruct (negb (dict_has "bpm" md) && flag) eqn:Hstep;
    [|left; rewrite <- Hnone; apply Hno].
  destruct (estimation W p) as [e|n]; [|left; apply Hno].
  destruct (stdout_error (diagnostic p e)) as [msg|] eqn:Hline.
  - right; right. exists e, msg. repeat split; try assumption.
    now destruct flag; [|rewrite andb_false_r in Hstep].
  - left. rewrite <- Hnone. apply Hno.
Qed.

(** X15: on any stdout [scan_directory] extracts every eligible file
    and never fails on one: what it ends in is decided by the root and
    by the progress lines alone.  Off a directory it reports and exits
    with status 1; on one it prints the root, that it is looking for
    files and how many it found, and returns the records of the
    eligible files in walk order, a file whose diagnostic line stdout
    refused being there with its error record; if stdout refuses one of
    the progress lines themselves, that exception ends the scan. *)
Theorem scan_directory_on_any_stdout (d : string) (flag : bool)
    (s : pystate) :
  let items := Backend.audio_files_of (os_walk W (normpath d)) in
  fst (Backend.scan_directory W d flag s)
  = scan_outcome W d (map (record_on W flag) items)
  /\ map (dict_get "file_path") (map (record_on W flag) items)
     = map (fun item => Some (VStr (fst item))) items
  /\ forall item,
       In item items ->
       dict_get "error" (record_on W flag item) = None
       \/ (exists e, parsed_of W item = inl e
                     /\ record_on W flag item = error_record (fst item) e)
       \/ (exists e msg,
             flag = true
             /\ estimation W (fst item) = inl e
             /\ stdout_error (diagnostic (fst item) e) = Some msg
             /\ record_on W flag item = error_record (fst item) msg).
Proof.
  cbv zeta. split; [apply scan_directory_outcome|]. split.
  - rewrite map_map. apply map_ext. intros item. apply record_on_path.
  - intros item _. apply record_on_cases.
Qed.

Lemma record_on_no_import item msg :
  import_librosa W = Some msg ->
  stdout_error (diagnostic (fst item) msg) = None ->
  record_on W true item = record_on W false item.
Proof.
  intros Himport Hline. unfold record_on, estimation. rewrite Himport, Hline.
  destruct (parsed_of W item) as [e|md]; [reflexivity|].
  now rewrite andb_false_r, andb_true_r; destruct (negb (dict_has "bpm" md)).
Qed.

(** X8: where librosa cannot be imported, scanning with the flag set
    returns the records of a scan with the flag off, provided stdout
    takes the diagnostic line of each eligible file: the import failure
    inside [calculate_bpm] is swallowed file by file, each time with
    that line. *)
Theorem scan_without_librosa (d : string) (s1 s2 : pystate) (msg : string)
    (Himport : import_librosa W = Some msg)
    (Hlines : forall item,
        In item (Backend.audio_files_of (os_walk W (normpath d))) ->
        stdout_error (diagnostic (fst item) msg) = None) :
  fst (Backend.scan_directory W d true s1)
  = fst (Backend.scan_directory W d false s2).
Proof.
  rewrite !scan_directory_outcome. f_equal. apply map_ext_in.
  intros item Hin. apply (record_on_no_import item msg Himport).
  now apply Hlines.
Qed.

End ScannerOnAnyStdout.

Lemma scan_without_librosa_witness :
  fst (Backend.scan_directory (os_path := posix) (console := strict_stdout)
         Rerun.world "music" true initial_state)
  = fst (Backend.scan_directory (os_path := posix) (console := strict_stdout)
           Rerun.world "music" false (after_print "again" initial_state)).
Proof.
  apply (scan_without_librosa (os_path := posix) (console := strict_stdout)
           Rerun.world "music" initial_state
           (after_print "again" initial_state) "No module named 'librosa'").
  - reflexivity.
  - intros item [<-|[<-|[<-|[]]]]; reflexivity.
Defined.

Example stray_name_scans :
  fst (Backend.scan_directory (os_path := posix) (console := strict_stdout)
         Stray.world "music" true initial_state)
  = Ok [[("file_path", VStr ("music/" ++ Stray.name));
         ("error",
          VStr "'utf-8' codec can't encode character '\udce9' in position 36: surrogates not allowed")]]
  /\ (exists record,
        fst (Backend.scan_directory (os_path := posix)
               (console := strict_stdout) Stray.world "music" false
               initial_state) = Ok [record]
        /\ dict_get "title" record = Some (VStr "Drone")
        /\ dict_get "error" record = None).
Proof. split; [reflexivity|]. eexists. repeat split; reflexivity. Qed.

(* ================================================================== *)
(** ** A bare output name *)
(* ================================================================== *)






(* ================================================================== *)
(** ** The HTTP endpoint *)
(* ================================================================== *)

Lemma extract_metadata_not_defined backend :
  existsb (String.eqb "extract_metadata") (Api.module_names backend) = false.
Proof. destruct backend; reflexivity. Qed.

(** X13: neither copy of the extractor defines [extract_metadata], so
    the endpoint cannot generate the report: when the metadata file is
    absent it answers 500 [Error generating metadata: ...] without
    calling anything of the module, and in every case it leaves the file
    as it found it and returns a document only from a file that is
    present and parses. *)
Theorem endpoint_never_generates (J : Type) (import_error : option string)
    (backend : bool) (module_file : string)
    (call0 : string -> Api.file_state J -> (string + unit) * Api.file_state J)
    (file : Api.file_state J) :
  let r := Api.get_audio_metadata J import_error (Api.module_names backend)
             module_file call0 file in
  snd r = file
  /\ match file with
     | None =>
         exists msg,
           fst r = Api.HTTPException 500 ("Error generating metadata: " ++ msg)
     | Some (inr data) => fst r = Api.Returned data
     | Some (inl e) =>
         fst r = Api.HTTPException 500 ("Error reading metadata: " ++ e)
     end.
Proof.
  cbv zeta. unfold Api.get_audio_metadata, Api.from_import.
  destruct file as [[e|data]|]; cbn [fst snd Api.read_or_500]; try (split; reflexivity).
  rewrite extract_metadata_not_defined.
  destruct import_error as [msg|]; cbn [fst snd]; split; eauto.
Qed.
